(** * tencent_table_ocr_batch: recognition worker, grid builder, batch coordinator

    A shallow embedding of [tencent_table_ocr_batch.py].  Python's exceptions
    are explicit ([result], [try_except]); state that a function mutates in
    place (the workbook, the coordinator's counters, the worker's requests and
    sleeps) is threaded through a small state-and-exception monad in which a
    raised exception keeps every mutation made before it, as in Python.

    What lies outside the file (the file system, the recognition service and
    openpyxl's writer) is gathered in the record [World]. *)

From Stdlib Require Import ZArith String Ascii List DecimalString Lia.
From Stdlib Require DecimalPos DecimalZ.
From stdpp Require Import gmap strings list.
From stdpp Require Import sorting.

Open Scope Z_scope.
Open Scope string_scope.

(** ** Python primitives used by the program *)

Module Py.

(** [str(n)] for an [int]. *)
Definition str_of_Z (z : Z) : string := NilZero.string_of_int (Z.to_int z).

(** [s.startswith(prefix)] *)
Definition startswith (s prefix : string) : bool := String.prefix prefix s.

(** [needle in s] on strings *)
Fixpoint contains (needle s : string) : bool :=
  match s with
  | EmptyString => String.prefix needle EmptyString
  | String _ rest => String.prefix needle s || contains needle rest
  end.

(** [s.replace('\n', '')] *)
Fixpoint remove_newlines (s : string) : string :=
  match s with
  | EmptyString => EmptyString
  | String c rest =>
      if Ascii.eqb c "010"%char then remove_newlines rest
      else String c (remove_newlines rest)
  end.

(** [p[:n]] and [p[n:]] for [0 <= n]. *)
Fixpoint str_take (n : nat) (s : string) : string :=
  match n, s with
  | S k, String c rest => String c (str_take k rest)
  | _, _ => EmptyString
  end.

Fixpoint str_drop (n : nat) (s : string) : string :=
  match n, s with
  | S k, String _ rest => str_drop k rest
  | _, _ => s
  end.

(** [s.rfind(c)]: the last index of [c], or [-1]. *)
Fixpoint rfind_from (c : ascii) (s : string) (i last : Z) : Z :=
  match s with
  | EmptyString => last
  | String d rest => rfind_from c rest (i + 1) (if Ascii.eqb d c then i else last)
  end.

Definition rfind (c : ascii) (s : string) : Z := rfind_from c s 0 (-1).

(** [os.path.basename] (POSIX): what follows the last slash. *)
Definition basename (p : string) : string :=
  str_drop (Z.to_nat (rfind "/"%char p + 1)) p.

(** [os.path.splitext] (POSIX, [genericpath._splitext]): the extension starts
    at the last dot of the last component, unless only dots precede it. *)
Definition splitext (p : string) : string * string :=
  let sepIndex := rfind "/"%char p in
  let dotIndex := rfind "."%char p in
  if dotIndex >? sepIndex then
    let filenameIndex := sepIndex + 1 in
    let between :=
      str_take (Z.to_nat (dotIndex - filenameIndex))
               (str_drop (Z.to_nat filenameIndex) p) in
    if existsb (fun ch => negb (Ascii.eqb ch "."%char)) (list_ascii_of_string between)
    then (str_take (Z.to_nat dotIndex) p, str_drop (Z.to_nat dotIndex) p)
    else (p, EmptyString)
  else (p, EmptyString).

(** Exceptions: [RuntimeError] is told apart because [main] has a handler of
    its own for it; every other subclass of [Exception] is [OtherException].
    Both carry [str(e)]. *)
Inductive exn : Type :=
| RuntimeError (msg : string)
| OtherException (msg : string).

Definition str (e : exn) : string :=
  match e with RuntimeError m | OtherException m => m end.

Inductive result (A : Type) : Type :=
| Ok (a : A)
| Raise (e : exn).
Arguments Ok {A} a.
Arguments Raise {A} e.

(** Computations over a mutable state [St] that may raise. *)
Definition M (St A : Type) : Type := St -> result A * St.

Definition ret {St A} (a : A) : M St A := fun s => (Ok a, s).

Definition bind {St A B} (c : M St A) (k : A -> M St B) : M St B :=
  fun s => match c s with
           | (Ok a, s') => k a s'
           | (Raise e, s') => (Raise e, s')
           end.

Definition raise {St A} (e : exn) : M St A := fun s => (Raise e, s).

Definition lift {St A} (r : result A) : M St A := fun s => (r, s).

Definition get {St} : M St St := fun s => (Ok s, s).

Definition modify {St} (f : St -> St) : M St unit := fun s => (Ok tt, f s).

(** [try: c / except Exception as e: h e] *)
Definition try_except {St A} (c : M St A) (h : exn -> M St A) : M St A :=
  fun s => match c s with
           | (Ok a, s') => (Ok a, s')
           | (Raise e, s') => h e s'
           end.

End Py.

Import Py.

Notation "'let*' x := c 'in' k" := (bind c (fun x => k))
  (at level 10, x name, c at level 100, k at level 200, only parsing).
Notation "c ;; k" := (bind c (fun _ => k))
  (at level 100, k at level 200, only parsing).

(** ** Data *)

(** One cell of a recognised table: [RowTl], [RowBr], [ColTl], [ColBr], [Text]. *)
Record Cell : Type := {
  RowTl : Z;
  RowBr : Z;
  ColTl : Z;
  ColBr : Z;
  Text : string
}.

(** A key of a JSON object: not there, there with [null] (Python's [None]),
    or there with a value.  The response of the service, as the worker
    returns it, has its keys and carries what the service left unset as
    [null]. *)
Inductive field (A : Type) : Type :=
| Absent
| Null
| Value (a : A).
Arguments Absent {A}.
Arguments Null {A}.
Arguments Value {A} a.

(** One entry of [TableDetections], with its key [Cells]. *)
Record TableDetection : Type := {
  Cells : field (list Cell)
}.

(** The parsed response, a JSON object, with its key [TableDetections];
    [RequestId] stands for the object's other keys. *)
Record RawResult : Type := {
  TableDetections : field (list TableDetection);
  RequestId : field string
}.

(** Truth value of the response object: a [dict] is false exactly when it
    has no key at all. *)
Definition truthy (r : RawResult) : bool :=
  match TableDetections r, RequestId r with
  | Absent, Absent => false
  | _, _ => true
  end.

(** What the service does with one request. *)
Inductive Response : Type :=
| Resp (r : RawResult)
| SdkError (code message request_id : string)   (* TencentCloudSDKException *)
| Fault (detail : string).                       (* any other exception *)

(** A worksheet: title, explicit column widths by column number, the values
    its cells hold, merged ranges in the order they were applied, and the
    cells given the centred, wrapping alignment. *)
Record Sheet : Type := {
  title : string;
  widths : list (Z * Z);
  values : gmap (Z * Z) string;
  merges : list (Z * Z * Z * Z);
  aligned : list (Z * Z)
}.

(** A workbook is the ordered sequence of its sheets. *)
Abbreviation Workbook := (list Sheet) (only parsing).

(** The environment of a run. *)
Record World : Type := {
  (** [os.path.getsize] *)
  getsize : string -> result Z;
  (** [open(path, "rb").read()] *)
  read_image : string -> result string;
  (** the service's answer to the worker's [n]-th request for an image *)
  client : string -> nat -> Response;
  (** whether [wb.save(path)] succeeds *)
  wb_save : string -> Workbook -> bool;
  (** [wb.create_sheet(title=t)] on a workbook whose sheets have the given
      titles: the title openpyxl gives the new sheet (it picks another when
      the one asked for is in use), or the exception it raises (for a title
      it does not allow) *)
  xl_create_sheet : list string -> string -> result string;
  (** [ws.cell(row=.., column=.., value=..)]: whether openpyxl takes the
      value or raises (as for a row or column below 1) *)
  xl_cell : Z -> Z -> string -> result unit;
  (** [ws.merge_cells(start_row=.., end_row=.., start_column=..,
      end_column=..)]: whether openpyxl takes the range or raises *)
  xl_merge_cells : Z * Z * Z * Z -> result unit
}.

(** ** Recognition worker *)

Module Worker.

Definition MAX_IMAGE_SIZE : Z := 3 * 1024 * 1024.

(** What a worker does that others can observe. *)
Inductive event : Type :=
| Request (image_path : string)
| Sleep (seconds : Z).

Definition emit (e : event) : M (list event) unit := modify (fun tr => (tr ++ [e])%list).

Definition check_image_size (w : World) (image_path : string) : bool :=
  match getsize w image_path with
  | Ok file_size => if file_size >? MAX_IMAGE_SIZE then false else true
  | Raise _ => false
  end.

Definition non_retryable_errors : gmap string string :=
  list_to_map
    [ ("AuthFailure.SecretIdNotFound", "密钥ID不存在");
      ("AuthFailure.SignatureFailure", "签名验证失败");
      ("AuthFailure.TokenFailure", "临时令牌无效");
      ("FailedOperation.ArrearsError", "账户欠费");
      ("FailedOperation.UnOpenError", "服务未开通");
      ("LimitExceeded", "超过配额限制");
      ("FailedOperation.OcrFailed.InvalidImage", "无效图片格式");
      ("FailedOperation.OcrFailed.TooLarge", "图片超过3MB限制");
      ("FailedOperation.OcrFailed.UnsupportedFormat", "不支持的图片格式");
      ("FailedOperation.OcrFailed.LowQuality", "图片质量过低");
      ("FailedOperation.OcrFailed.NoText", "未检测到文本");
      ("FailedOperation.OcrFailed.NoTable", "未检测到表格");
      ("FailedOperation.OcrFailed.ComplexTable", "表格结构过于复杂");
      ("FailedOperation.ImageSizeTooSmall", "图片尺寸过小");
      ("FailedOperation.ImageNoText", "图片中无文本");
      ("InvalidParameter", "参数错误");
      ("InvalidParameterValue", "参数值无效");
      ("MissingParameter", "缺少必要参数") ].

Definition error_guidance : gmap string string :=
  list_to_map
    [ ("FailedOperation.OcrFailed.LowQuality", "建议：提高图片分辨率，增强对比度，减少反光");
      ("FailedOperation.OcrFailed.ComplexTable", "建议：简化表格结构，避免嵌套表格，减少合并单元格");
      ("FailedOperation.OcrFailed.NoText", "建议：确认图片包含文字，检查文字方向");
      ("FailedOperation.OcrFailed.NoTable", "建议：确保图片包含清晰的表格边框");
      ("FailedOperation.ImageDecodeFailed", "建议：重新保存图片为标准JPEG/PNG格式") ].

(** [error_guidance.get(error_code, ...)] *)
Definition suggestion_for (error_code : string) : string :=
  default "建议：检查图片内容并重试" (error_guidance !! error_code).

Definition max_retries : nat := 3.

(** The label the retry branch puts on an error in its warning. *)
Definition error_type (error_code : string) : string :=
  if contains "LimitExceeded" error_code then "限频错误"
  else if contains "Internal" error_code || contains "UnKnow" error_code then "服务端错误"
  else "可恢复错误".

(** The worker's outcome, the pair [(result, error_msg)]. *)
Definition Outcome : Type := option RawResult * option string.

(** The body of [for attempt in range(max_retries)], with the statement after
    the loop as the empty case. *)
Fixpoint attempts (w : World) (image_path : string) (todo : list nat)
    (retry_delay : Z) : M (list event) Outcome :=
  match todo with
  | [] => ret (None, Some "达到最大重试次数")
  | attempt :: rest =>
      emit (Request image_path) ;;
      match client w image_path attempt with
      | Resp r => ret (Some r, None)
      | SdkError error_code error_msg _ =>
          match non_retryable_errors !! error_code with
          | Some friendly_msg =>
              ret (None, Some (friendly_msg +:+ " | " +:+ suggestion_for error_code
                               +:+ " [错误码: " +:+ error_code +:+ "]"))
          | None =>
              if startswith error_code "AuthFailure" then
                raise (RuntimeError ("腾讯云认证错误: " +:+ error_msg
                                     +:+ " [错误码: " +:+ error_code +:+ "]"))
              else if (attempt <? max_retries - 1)%nat then
                emit (Sleep retry_delay) ;;
                attempts w image_path rest (retry_delay * 2)
              else
                ret (None, Some ("重试失败: " +:+ error_msg
                                 +:+ " [错误码: " +:+ error_code +:+ "]"))
          end
      | Fault detail =>
          if (attempt <? max_retries - 1)%nat then
            emit (Sleep retry_delay) ;;
            attempts w image_path rest (retry_delay * 2)
          else
            ret (None, Some ("网络错误: " +:+ detail))
      end
  end.

Definition process_image (w : World) (image_path : string) : M (list event) Outcome :=
  try_except
    (if negb (check_image_size w image_path) then
       ret (None, Some "图片超过3MB限制")
     else
       let* _image := lift (read_image w image_path) in
       attempts w image_path (seq 0 max_retries) 2)
    (fun e => ret (None, Some ("处理错误: " +:+ str e))).

(** A worker started with nothing observed yet. *)
Definition run_worker (w : World) (image_path : string) : result Outcome * list event :=
  process_image w image_path [].

(** The image passes the size check and can be read. *)
Definition ready (w : World) (image_path : string) : Prop :=
  check_image_size w image_path = true /\ exists bytes, read_image w image_path = Ok bytes.

(** The code reaches the retry branch: it is no key of the table and does not
    start with [AuthFailure]. *)
Definition retryable (error_code : string) : Prop :=
  non_retryable_errors !! error_code = None /\ startswith error_code "AuthFailure" = false.

(** The response sends the loop on to its next attempt, when one is left: a
    service error with such a code, or any other exception from the call. *)
Definition retried (resp : Response) : Prop :=
  match resp with
  | Resp _ => False
  | SdkError error_code _ _ => retryable error_code
  | Fault _ => True
  end.

(** The events of a worker that runs out of attempts. *)
Definition full_schedule (image_path : string) : list event :=
  [Request image_path; Sleep 2; Request image_path; Sleep 4; Request image_path].

End Worker.

(** ** Grid builder *)

Module Grid.

Definition column_widths : list Z := [8; 25; 8; 40; 10; 10; 10; 10; 10].

Definition no_table_msg : string := "未识别到有效的表格数据".

(** [str(e)] of the [ValueError] that [max] raises on an empty sequence, of
    the [KeyError] for a missing ['Cells'], and of the [TypeError]s for
    [len(None)] and for iterating [None]. *)
Definition max_empty_msg : string := "max() arg is an empty sequence".
Definition key_error_Cells : string := "'Cells'".
Definition len_None_msg : string := "object of type 'NoneType' has no len()".
Definition iter_None_msg : string := "'NoneType' object is not iterable".

Definition py_max (l : list Z) : result Z :=
  match l with
  | [] => Raise (OtherException max_empty_msg)
  | x :: rest => Ok (foldl Z.max x rest)
  end.

(** [main_table['Cells']]: the list, or [None] for [null] *)
Definition getitem_Cells (t : TableDetection) : result (option (list Cell)) :=
  match Cells t with
  | Value cells => Ok (Some cells)
  | Null => Ok None
  | Absent => Raise (OtherException key_error_Cells)
  end.

(** [for cell in cells]: iterating what [main_table['Cells']] gave *)
Definition py_iter {A} (v : option (list A)) : result (list A) :=
  match v with
  | Some l => Ok l
  | None => Raise (OtherException iter_None_msg)
  end.

(** [tds[i]] on a list *)
Definition getitem {A} (l : list A) (i : nat) : result A :=
  match l !! i with
  | Some x => Ok x
  | None => Raise (OtherException "list index out of range")
  end.

Definition new_sheet (t : string) : Sheet :=
  {| title := t; widths := []; values := ∅; merges := []; aligned := [] |}.

(** [wb.create_sheet(title=t)].  When openpyxl takes the title the sheet is
    appended to the workbook at once, under the title openpyxl gives it; the
    handle [ws] is its position, so later writes through [ws] are writes to
    the workbook.  When openpyxl raises, no sheet is added. *)
Definition create_sheet (w : World) (t : string) : M Workbook nat :=
  fun wb =>
    match xl_create_sheet w (title <$> wb) t with
    | Ok given => (Ok (length wb), (wb ++ [new_sheet given])%list)
    | Raise e => (Raise e, wb)
    end.

Definition update_sheet (ws : nat) (f : Sheet -> Sheet) : M Workbook unit :=
  modify (alter f ws).

(** [for i, width in enumerate(column_widths, 1): ...width = width] *)
Definition set_widths (ws : Sheet) : Sheet :=
  {| title := title ws;
     widths := (widths ws ++ zip (seqZ 1 (Z.of_nat (length column_widths))) column_widths)%list;
     values := values ws; merges := merges ws; aligned := aligned ws |}.

(** One turn of [for cell in cells] on [(cell_dict, merged_cells)]. *)
Definition cell_step (acc : gmap (Z * Z) string * list (Z * Z * Z * Z)) (cell : Cell)
    : gmap (Z * Z) string * list (Z * Z * Z * Z) :=
  let '(cell_dict, merged_cells) := acc in
  let row_start := RowTl cell + 1 in
  let row_end := RowBr cell in
  let col_start := ColTl cell + 1 in
  let col_end := ColBr cell in
  let text := remove_newlines (Text cell) in
  let cell_dict := <[(row_start, col_start) := text]> cell_dict in
  if (row_end >? row_start) || (col_end >? col_start)
  then (cell_dict, (merged_cells ++ [(row_start, row_end, col_start, col_end)])%list)
  else (cell_dict, merged_cells).

Definition fill_cells (cells : list Cell) : gmap (Z * Z) string * list (Z * Z * Z * Z) :=
  foldl cell_step (∅, []) cells.

(** The keys of [cell_dict] in the order [cell_dict.items()] yields them: a
    [dict] keeps every key where it was first inserted, also when a later
    cell overwrites its value. *)
Fixpoint insertion_order (seen : list (Z * Z)) (cells : list Cell) : list (Z * Z) :=
  match cells with
  | [] => []
  | cell :: rest =>
      if bool_decide ((RowTl cell + 1, ColTl cell + 1) ∈ seen)
      then insertion_order seen rest
      else (RowTl cell + 1, ColTl cell + 1)
           :: insertion_order ((RowTl cell + 1, ColTl cell + 1) :: seen) rest
  end.

(** [cell_dict.items()] *)
Definition items (cells : list Cell) (cell_dict : gmap (Z * Z) string)
    : list (Z * Z * string) :=
  omap (fun k => (fun value => (k, value)) <$> cell_dict !! k) (insertion_order [] cells).

(** [ws.cell(row, column, value)], once openpyxl has taken it *)
Definition set_value (k : Z * Z) (value : string) (ws : Sheet) : Sheet :=
  {| title := title ws; widths := widths ws;
     values := <[k := value]> (values ws);
     merges := merges ws; aligned := aligned ws |}.

(** [for (row, col), value in cell_dict.items(): ws.cell(row, col, value)]:
    the writes up to the first that openpyxl refuses stay in the sheet. *)
Fixpoint write_cells (w : World) (ws : nat) (todo : list (Z * Z * string))
    : M Workbook unit :=
  match todo with
  | [] => ret tt
  | (row, col, value) :: rest =>
      lift (xl_cell w row col value) ;;
      update_sheet ws (set_value (row, col) value) ;;
      write_cells w ws rest
  end.

(** Whether merging [range] empties the cell at [k]: openpyxl keeps the
    top-left cell of a merged range and empties every other cell of it. *)
Definition emptied_by (range : Z * Z * Z * Z) (k : Z * Z) : bool :=
  let '(row_start, row_end, col_start, col_end) := range in
  (row_start <=? k.1)%Z && (k.1 <=? row_end)%Z
  && (col_start <=? k.2)%Z && (k.2 <=? col_end)%Z
  && negb ((k.1 =? row_start)%Z && (k.2 =? col_start)%Z).

(** [ws.merge_cells(...)], once openpyxl has taken the range *)
Definition merge_cells (range : Z * Z * Z * Z) (ws : Sheet) : Sheet :=
  {| title := title ws; widths := widths ws;
     values := filter (fun kv => emptied_by range kv.1 = false) (values ws);
     merges := (merges ws ++ [range])%list; aligned := aligned ws |}.

(** [for merge in merged_cells: ws.merge_cells(...)] *)
Fixpoint apply_merges (w : World) (ws : nat) (todo : list (Z * Z * Z * Z))
    : M Workbook unit :=
  match todo with
  | [] => ret tt
  | merge :: rest =>
      lift (xl_merge_cells w merge) ;;
      update_sheet ws (merge_cells merge) ;;
      apply_merges w ws rest
  end.

(** The coordinates the alignment pass visits and finds in [cell_dict]. *)
Definition occupied_in_box (max_row max_col : Z) (cell_dict : gmap (Z * Z) string)
    : list (Z * Z) :=
  flat_map (fun row =>
    flat_map (fun col =>
      if bool_decide (is_Some (cell_dict !! (row, col))) then [(row, col)] else [])
      (seqZ 1 max_col))
    (seqZ 1 max_row).

Definition align_cells (max_row max_col : Z) (cell_dict : gmap (Z * Z) string)
    (ws : Sheet) : Sheet :=
  {| title := title ws; widths := widths ws; values := values ws; merges := merges ws;
     aligned := (aligned ws ++ occupied_in_box max_row max_col cell_dict)%list |}.

Definition create_worksheet (w : World) (base_name : string) (result : RawResult)
    : M Workbook (bool * option string) :=
  try_except
    (match TableDetections result with
     | Absent => ret (false, Some no_table_msg)
     | Null => raise (OtherException len_None_msg)
     | Value tds =>
         if (length tds <? 2)%nat then ret (false, Some no_table_msg)
         else
           let* ws := create_sheet w base_name in
           let* main_table := lift (getitem tds 1) in
           let* cells := lift (getitem_Cells main_table) in
           update_sheet ws set_widths ;;
           let* cells := lift (py_iter cells) in
           let* max_row := lift (py_max (RowBr <$> cells)) in
           let* max_col := lift (py_max (ColBr <$> cells)) in
           let '(cell_dict, merged_cells) := fill_cells cells in
           write_cells w ws (items cells cell_dict) ;;
           apply_merges w ws merged_cells ;;
           update_sheet ws (align_cells max_row max_col cell_dict) ;;
           ret (true, None)
     end)
    (fun e => ret (false, Some ("创建工作表出错: " +:+ str e))).

End Grid.

(** ** Checkpointed writer and batch coordinator *)

Module Coordinator.

(** The coordinator's variables, and the files [wb.save] has written. *)
Record MainState : Type := {
  wb : option Workbook;
  processed_count : Z;
  success_count : Z;
  batch_counter : Z;
  failed_files : list (string * option string);
  disk : list (string * Workbook)
}.

Definition initial : MainState :=
  {| wb := None; processed_count := 0; success_count := 0; batch_counter := 0;
     failed_files := []; disk := [] |}.


(** The path of a checkpoint: [f"{base_name}_batch{batch_num}{ext}"]. *)
Definition temp_path (output_path : string) (batch_num : Z) : string :=
  let '(base_name, ext) := splitext output_path in
  base_name +:+ "_batch" +:+ str_of_Z batch_num +:+ ext.

(** [save_workbook(wb, output_path, batch_num)] on the files written so far. *)
Definition save_workbook (w : World) (book : Workbook) (output_path : string)
    (batch_num : option Z) (files : list (string * Workbook))
    : bool * list (string * Workbook) :=
  match batch_num with
  | Some n =>
      if wb_save w (temp_path output_path n) book
      then (true, (files ++ [(temp_path output_path n, book)])%list)
      else (false, files)
  | None =>
      if wb_save w output_path book
      then (true, (files ++ [(output_path, book)])%list)
      else (false, files)
  end.

(** Assignments to the coordinator's variables. *)
Definition count_processed (s : MainState) : MainState :=
  {| wb := wb s; processed_count := processed_count s + 1;
     success_count := success_count s; batch_counter := batch_counter s;
     failed_files := failed_files s; disk := disk s |}.

Definition count_success (s : MainState) : MainState :=
  {| wb := wb s; processed_count := processed_count s;
     success_count := success_count s + 1; batch_counter := batch_counter s + 1;
     failed_files := failed_files s; disk := disk s |}.

Definition reset_batch_counter (s : MainState) : MainState :=
  {| wb := wb s; processed_count := processed_count s;
     success_count := success_count s; batch_counter := 0;
     failed_files := failed_files s; disk := disk s |}.

Definition set_wb (book : Workbook) (s : MainState) : MainState :=
  {| wb := Some book; processed_count := processed_count s;
     success_count := success_count s; batch_counter := batch_counter s;
     failed_files := failed_files s; disk := disk s |}.

Definition set_disk (files : list (string * Workbook)) (s : MainState) : MainState :=
  {| wb := wb s; processed_count := processed_count s;
     success_count := success_count s; batch_counter := batch_counter s;
     failed_files := failed_files s; disk := files |}.

(** [failed_files.append((img_name, reason))] *)
Definition append_failure (img_name : string) (reason : option string) (s : MainState)
    : MainState :=
  {| wb := wb s; processed_count := processed_count s;
     success_count := success_count s; batch_counter := batch_counter s;
     failed_files := (failed_files s ++ [(img_name, reason)])%list; disk := disk s |}.

(** [if wb is None: wb = openpyxl.Workbook(); del wb['Sheet']] *)
Definition ensure_workbook (s : MainState) : MainState :=
  match wb s with
  | None => set_wb [] s
  | Some _ => s
  end.

(** A call that works on the coordinator's workbook in place. *)
Definition on_workbook {A} (c : M Workbook A) : M MainState A :=
  fun s => let '(r, book) := c (default [] (wb s)) in (r, set_wb book s).

(** [a // b] on integers *)
Definition floordiv (a b : Z) : result Z :=
  if (b =? 0)%Z then Raise (OtherException "integer division or modulo by zero")
  else Ok (a / b).

(** How one turn of the draining loop ends: with the next completion, or with
    [return] out of [main]. *)
Inductive flow : Type := Next | Return.

(** The body of [for future in as_completed(...)] for the future of
    [img_path], whose [future.result()] is [future]. *)
Definition complete (w : World) (output_path : string) (batch_size : Z)
    (img_path : string) (future : result Worker.Outcome) : M MainState flow :=
  modify count_processed ;;
  let img_name := basename img_path in
  try_except
    (let* outcome := lift future in
     let '(result, error_msg) := outcome in
     match result with
     | Some r =>
         if truthy r then
           let base_name := fst (splitext img_name) in
           modify ensure_workbook ;;
           let* created := on_workbook (Grid.create_worksheet w base_name r) in
           let '(success, create_error) := created in
           if success : bool then
             modify count_success ;;
             let* s := get in
             match wb s with
             | Some book =>
                 if batch_counter s >=? batch_size then
                   let* batch_num := lift (floordiv (success_count s) batch_size) in
                   modify (fun s =>
                     set_disk (save_workbook w book output_path (Some batch_num) (disk s)).2 s) ;;
                   modify reset_batch_counter ;;
                   ret Next
                 else ret Next
             | None => ret Next
             end
           else
             modify (append_failure img_name create_error) ;;
             ret Next
         else
           modify (append_failure img_name error_msg) ;;
           ret Next
     | None =>
         modify (append_failure img_name error_msg) ;;
         ret Next
     end)
    (fun e =>
       match e with
       | RuntimeError _ => ret Return
       | OtherException msg =>
           modify (append_failure img_name (Some msg)) ;;
           ret Next
       end).

(** The draining loop over the completions, in the order they arrive. *)
Fixpoint drain (w : World) (output_path : string) (batch_size : Z)
    (completions : list (string * result Worker.Outcome)) : M MainState flow :=
  match completions with
  | [] => ret Next
  | (img_path, future) :: rest =>
      let* f := complete w output_path batch_size img_path future in
      match f with
      | Return => ret Return
      | Next => drain w output_path batch_size rest
      end
  end.

(** [if wb is not None: save_workbook(wb, output_path)] *)
Definition final_save (w : World) (output_path : string) (s : MainState) : MainState :=
  match wb s with
  | Some book => set_disk (save_workbook w book output_path None (disk s)).2 s
  | None => s
  end.

Definition newline : string := String "010"%char EmptyString.

(** What is written to the failure report, one [f.write] each. *)
Definition report_lines (failed : list (string * option string)) : list string :=
  ("失败文件列表:" +:+ newline)
  :: (String.concat "" (replicate 50 "=") +:+ newline)
  :: imap (fun i '(file_name, reason) =>
             str_of_Z (Z.of_nat i + 1) +:+ ". " +:+ file_name +:+ ": "
             +:+ default "None" reason +:+ newline) failed.

(** How [main] ends: by the [return] for an empty directory, after the final
    save and the summary, by the [return] of the [RuntimeError] handler, or in
    its outermost handler. *)
Inductive ending : Type := NothingToDo | Finished | AuthAborted | Crashed.

Record Run : Type := {
  how : ending;
  state : MainState;
  failure_report : option (list string)
}.

(** [main] from the point where the images are known.  [image_files] are the
    submitted images; [arrival] is the order in which [as_completed] yields
    their futures. *)
Definition main (w : World) (output_path : string) (batch_size : Z)
    (image_files arrival : list string) : Run :=
  match image_files with
  | [] => {| how := NothingToDo; state := initial; failure_report := None |}
  | _ =>
      let completions := map (fun p => (p, (Worker.run_worker w p).1)) arrival in
      match drain w output_path batch_size completions initial with
      | (Ok Next, s) =>
          let s := final_save w output_path s in
          {| how := Finished; state := s;
             failure_report :=
               match failed_files s with
               | [] => None
               | _ => Some (report_lines (failed_files s))
               end |}
      | (Ok Return, s) => {| how := AuthAborted; state := s; failure_report := None |}
      | (Raise _, s) => {| how := Crashed; state := s; failure_report := None |}
      end
  end.

(** [titled w seen base_names titles]: in a workbook whose sheets have the
    titles [seen], [titles] are the titles openpyxl gives, one after another,
    to sheets asked for under some of [base_names], in their order. *)
Inductive titled (w : World) : list string -> list string -> list string -> Prop :=
| titled_none seen : titled w seen [] []
| titled_skip seen base_name base_names titles :
    titled w seen base_names titles ->
    titled w seen (base_name :: base_names) titles
| titled_next seen base_name base_names given titles :
    xl_create_sheet w seen base_name = Ok given ->
    titled w (seen ++ [given])%list base_names titles ->
    titled w seen (base_name :: base_names) (given :: titles).

End Coordinator.

(** ** The error classifier *)

Module Classifier.

Inductive Category : Type := Terminal | AuthFatal | Retryable.

(** The category a service error code falls in, read off the order of the
    tests in the worker's [except TencentCloudSDKException] handler: the table
    of non-retryable codes first, the [AuthFailure] prefix second, retry last. *)
Definition category (error_code : string) : Category :=
  match Worker.non_retryable_errors !! error_code with
  | Some _ => Terminal
  | None => if startswith error_code "AuthFailure" then AuthFatal else Retryable
  end.

(** The codes that section 4.1 of the specification makes Terminal, in its
    words those that denote an invalid, oversized or unsupported image, low
    quality, missing text or table, an overly complex table or invalid
    parameters, with decode failure among those that have a remediation hint:
    the image and the parameter entries of the table, and the decode-failure
    code of the hints. *)
Definition spec_terminal_codes : list string :=
  [ "FailedOperation.OcrFailed.InvalidImage";
    "FailedOperation.OcrFailed.TooLarge";
    "FailedOperation.OcrFailed.UnsupportedFormat";
    "FailedOperation.OcrFailed.LowQuality";
    "FailedOperation.OcrFailed.NoText";
    "FailedOperation.OcrFailed.NoTable";
    "FailedOperation.OcrFailed.ComplexTable";
    "FailedOperation.ImageSizeTooSmall";
    "FailedOperation.ImageNoText";
    "FailedOperation.ImageDecodeFailed";
    "InvalidParameter";
    "InvalidParameterValue";
    "MissingParameter" ].

(** The classification as the specification words it (section 4.1), to be
    compared with [category]: AuthFatal when the code denotes credential,
    signature or token invalidity, Terminal for the codes above, Retryable
    for every other code. *)
Definition spec_category (error_code : string) : Category :=
  if startswith error_code "AuthFailure" then AuthFatal
  else if bool_decide (error_code ∈ spec_terminal_codes) then Terminal
  else Retryable.

End Classifier.

(** ** Scenarios *)

Module Scenario.

Definition tall_cell : Cell :=
  {| RowTl := 0; RowBr := 2; ColTl := 0; ColBr := 1;
     Text := String "a"%char (String "010"%char "b") |}.

Definition plain_cell : Cell :=
  {| RowTl := 0; RowBr := 1; ColTl := 1; ColBr := 2; Text := "x" |}.

(** A response with a header region and a main table of two cells. *)
Definition table_result : RawResult :=
  {| TableDetections := Value [ {| Cells := Value [] |};
                                {| Cells := Value [tall_cell; plain_cell] |} ];
     RequestId := Value "req-1" |}.

(** A response whose second region was detected with no cell in it. *)
Definition empty_table_result : RawResult :=
  {| TableDetections := Value [ {| Cells := Value [] |}; {| Cells := Value [] |} ];
     RequestId := Value "req-2" |}.

(** A response with a single region. *)
Definition one_region_result : RawResult :=
  {| TableDetections := Value [ {| Cells := Value [plain_cell] |} ];
     RequestId := Value "req-3" |}.

(** openpyxl on the sheets of the scenarios.  No title is empty and none is
    asked for while in use (openpyxl would pick another), so a sheet gets the
    title asked for, unless the title has a character openpyxl does not
    allow; a cell is refused when its row or column is below 1; the ranges
    are well-formed, and taken. *)
Definition invalid_title_chars : list ascii :=
  ["\"; "*"; "?"; ":"; "/"; "["; "]"]%char.

Definition sheet_title (titles : list string) (t : string) : result string :=
  match List.find (fun ch => bool_decide (ch ∈ invalid_title_chars))
                  (list_ascii_of_string t) with
  | Some ch =>
      Raise (OtherException
               ("Invalid character " +:+ String ch EmptyString +:+ " found in sheet title"))
  | None => Ok t
  end.

Definition cell_taken (row col : Z) (value : string) : result unit :=
  if (row <? 1)%Z || (col <? 1)%Z
  then Raise (OtherException "Row or column values must be at least 1")
  else Ok tt.

Definition range_taken (range : Z * Z * Z * Z) : result unit := Ok tt.

(** A directory whose images each meet one fate.  Every file can be read;
    [big.png] is larger than the limit and the size of [gone.png] cannot be
    read; the service answers by image. *)
Definition world : World :=
  {| getsize p :=
       if String.eqb p "imgs/big.png" then Ok 4000000
       else if String.eqb p "imgs/gone.png" then Raise (OtherException "[Errno 2] No such file or directory")
       else Ok 1000;
     read_image _ := Ok "bytes";
     client p n :=
       if String.eqb p "imgs/a.png" then Resp table_result
       else if String.eqb p "imgs/b.png" then Resp table_result
       else if String.eqb p "imgs/empty.png" then Resp empty_table_result
       else if String.eqb p "imgs/one.png" then Resp one_region_result
       else if String.eqb p "imgs/expired.png" then
         SdkError "AuthFailure.SignatureExpire" "signature expired" "req-4"
       else if String.eqb p "imgs/badsig.png" then
         SdkError "AuthFailure.SignatureFailure" "signature mismatch" "req-5"
       else if String.eqb p "imgs/quota.png" then
         SdkError "LimitExceeded" "quota exceeded" "req-6"
       else if String.eqb p "imgs/busy.png" then
         SdkError "RequestLimitExceeded" "too many requests" "req-7"
       else if String.eqb p "imgs/notable.png" then
         SdkError "FailedOperation.OcrFailed.NoTable" "no table" "req-8"
       else if String.eqb p "imgs/undecodable.png" then
         SdkError "FailedOperation.ImageDecodeFailed" "decode failed" "req-10"
       else if String.eqb p "imgs/flaky.png" then
         match n with
         | O => SdkError "InternalError" "internal error" "req-9"
         | _ => Resp table_result
         end
       else Fault "connection reset";
     wb_save _ _ := true;
     xl_create_sheet := sheet_title;
     xl_cell := cell_taken;
     xl_merge_cells := range_taken |}.

(** A run in which one of three images meets an [AuthFailure] code that is no
    key of the table; the futures complete in the order submitted. *)
Definition auth_run : Coordinator.Run :=
  Coordinator.main world "out/res.xlsx" 10
    ["imgs/a.png"; "imgs/expired.png"; "imgs/b.png"]
    ["imgs/a.png"; "imgs/expired.png"; "imgs/b.png"].

(** A run on the one image whose main table has no cell. *)
Definition empty_table_run : Coordinator.Run :=
  Coordinator.main world "out/res.xlsx" 10 ["imgs/empty.png"] ["imgs/empty.png"].

(** A run on one good image with the threshold set to zero. *)
Definition zero_threshold_run : Coordinator.Run :=
  Coordinator.main world "out/res.xlsx" 0 ["imgs/a.png"] ["imgs/a.png"].

End Scenario.

(** ** Further scenarios *)

Module Cases.

(** A directory with an image of exactly the size limit, one whose bytes
    cannot be read, and one that the service first fails on internally and
    then finds no table in.  The first checkpoint cannot be written. *)
Definition world : World :=
  {| getsize p :=
       if String.eqb p "imgs/limit.png" then Ok (3 * 1024 * 1024)
       else if String.eqb p "imgs/over.png" then Ok (3 * 1024 * 1024 + 1)
       else Ok 2048;
     read_image p :=
       if String.eqb p "imgs/locked.png"
       then Raise (OtherException "[Errno 13] Permission denied")
       else Ok "bytes";
     client p n :=
       if String.eqb p "imgs/late.png" then
         match n with
         | O => SdkError "InternalError" "internal error" "req-20"
         | _ => SdkError "FailedOperation.OcrFailed.NoTable" "no table" "req-21"
         end
       else if String.eqb p "imgs/down.png" then Fault "timed out"
       else Resp Scenario.table_result;
     wb_save path _ := negb (String.eqb path "out/res_batch1.xlsx");
     xl_create_sheet := Scenario.sheet_title;
     xl_cell := Scenario.cell_taken;
     xl_merge_cells := Scenario.range_taken |}.

End Cases.

(** ** Scanning the image directory *)

Module Scan.

Definition SUPPORTED_EXT : list string :=
  [".png"; ".jpg"; ".jpeg"; ".bmp"; ".gif"; ".tiff"].

(** [s.lower()].  Strings are their UTF-8 bytes here, and the bytes of a
    character outside ASCII are left as they are.  Python lowers such
    characters too, but never to a string made of the letters of
    [SUPPORTED_EXT], so the test below answers as Python's does. *)
Definition lower_char (c : ascii) : ascii :=
  let n := nat_of_ascii c in
  if (65 <=? n)%nat && (n <=? 90)%nat then ascii_of_nat (n + 32) else c.

Fixpoint lower (s : string) : string :=
  match s with
  | EmptyString => EmptyString
  | String c rest => String (lower_char c) (lower rest)
  end.

(** [s.endswith("/")] *)
Fixpoint ends_with_sep (s : string) : bool :=
  match s with
  | EmptyString => false
  | String c EmptyString => Ascii.eqb c "/"%char
  | String _ rest => ends_with_sep rest
  end.

(** [os.path.join(a, b)] (POSIX) *)
Definition join (a b : string) : string :=
  if startswith b "/" then b
  else if String.eqb a EmptyString || ends_with_sep a then a +:+ b
  else a +:+ "/" +:+ b.

(** [os.path.splitext(f)[1].lower() in SUPPORTED_EXT] *)
Definition supported (f : string) : bool :=
  bool_decide (lower (splitext f).2 ∈ SUPPORTED_EXT).

(** The order of [list.sort] on strings. *)
Definition str_le (a b : string) : Prop := String.leb a b = true.

#[global] Instance str_le_dec (a b : string) : Decision (str_le a b) :=
  decide (String.leb a b = true).

(** The images of [image_dir], whose entries are [listing]: the comprehension
    over [os.listdir(image_dir)], then [image_files.sort()]. *)
Definition image_files (image_dir : string) (listing : list string) : list string :=
  merge_sort str_le (map (join image_dir) (filter (fun f => supported f = true) listing)).

End Scan.

(** * Properties *)

(** ** Python primitives *)

Module PyFacts.

Lemma str_take_drop (n : nat) (s : string) : str_take n s +:+ str_drop n s = s.
Proof.
  revert s; induction n as [|n IH]; intros [|c s]; try reflexivity.
  change (String c (str_take n s +:+ str_drop n s) = String c s).
  f_equal. apply IH.
Qed.

Lemma length_append (s t : string) :
  String.length (s +:+ t) = (String.length s + String.length t)%nat.
Proof.
  induction s as [|c s IH]; [reflexivity |].
  change (S (String.length (s +:+ t)) = S (String.length s + String.length t)).
  now rewrite IH.
Qed.

Lemma append_empty (s : string) : s +:+ EmptyString = s.
Proof.
  induction s as [|c s IH]; [reflexivity |].
  change (String c (s +:+ EmptyString) = String c s). now rewrite IH.
Qed.

(** [splitext] cuts the path in two: nothing is lost or added. *)
Lemma splitext_append (p : string) : (splitext p).1 +:+ (splitext p).2 = p.
Proof.
  unfold splitext.
  destruct (rfind "." p >? rfind "/" p); simpl.
  - match goal with |- context [existsb ?f ?l] => destruct (existsb f l) end; simpl.
    + apply str_take_drop.
    + apply append_empty.
  - apply append_empty.
Qed.

(** No line feed survives [remove_newlines]. *)
Lemma remove_newlines_clean (s : string) :
  ~ In "010"%char (list_ascii_of_string (remove_newlines s)).
Proof.
  induction s as [|c s IH]; simpl; [tauto |].
  destruct (Ascii.eqb c "010") eqn:E; simpl; [exact IH |].
  intros [H | H]; [| exact (IH H)].
  subst c. discriminate E.
Qed.

End PyFacts.

(** ** Recognition worker *)

Module WorkerFacts.

Import Worker.

Section Attempts.

Variable w : World.
Variable image_path : string.

Lemma attempts_success attempt rest delay tr r :
  client w image_path attempt = Resp r ->
  attempts w image_path (attempt :: rest) delay tr
  = (Ok (Some r, None), (tr ++ [Request image_path])%list).
Proof. intros H. cbn [attempts]. unfold bind, emit, modify. now rewrite H. Qed.

Lemma attempts_terminal attempt rest delay tr code msg rid friendly :
  client w image_path attempt = SdkError code msg rid ->
  non_retryable_errors !! code = Some friendly ->
  attempts w image_path (attempt :: rest) delay tr
  = (Ok (None, Some (friendly +:+ " | " +:+ suggestion_for code
                     +:+ " [错误码: " +:+ code +:+ "]")),
     (tr ++ [Request image_path])%list).
Proof. intros H T. cbn [attempts]. unfold bind, emit, modify. now rewrite H, T. Qed.

Lemma attempts_auth attempt rest delay tr code msg rid :
  client w image_path attempt = SdkError code msg rid ->
  non_retryable_errors !! code = None ->
  startswith code "AuthFailure" = true ->
  attempts w image_path (attempt :: rest) delay tr
  = (Raise (RuntimeError ("腾讯云认证错误: " +:+ msg +:+ " [错误码: " +:+ code +:+ "]")),
     (tr ++ [Request image_path])%list).
Proof. intros H T A. cbn [attempts]. unfold bind, emit, modify. now rewrite H, T, A. Qed.

Lemma attempts_retry attempt rest delay tr code msg rid :
  client w image_path attempt = SdkError code msg rid ->
  retryable code ->
  (attempt < max_retries - 1)%nat ->
  attempts w image_path (attempt :: rest) delay tr
  = attempts w image_path rest (delay * 2)
      (tr ++ [Request image_path; Sleep delay])%list.
Proof.
  intros H [T A] L. cbn [attempts]. unfold bind, emit, modify. rewrite H, T, A.
  apply Nat.ltb_lt in L. rewrite L. now rewrite <- app_assoc.
Qed.

Lemma attempts_exhausted attempt rest delay tr code msg rid :
  client w image_path attempt = SdkError code msg rid ->
  retryable code ->
  ~ (attempt < max_retries - 1)%nat ->
  attempts w image_path (attempt :: rest) delay tr
  = (Ok (None, Some ("重试失败: " +:+ msg +:+ " [错误码: " +:+ code +:+ "]")),
     (tr ++ [Request image_path])%list).
Proof.
  intros H [T A] L. cbn [attempts]. unfold bind, emit, modify. rewrite H, T, A.
  apply Nat.ltb_nlt in L. now rewrite L.
Qed.

Lemma attempts_fault_retry attempt rest delay tr detail :
  client w image_path attempt = Fault detail ->
  (attempt < max_retries - 1)%nat ->
  attempts w image_path (attempt :: rest) delay tr
  = attempts w image_path rest (delay * 2)
      (tr ++ [Request image_path; Sleep delay])%list.
Proof.
  intros H L. cbn [attempts]. unfold bind, emit, modify. rewrite H.
  apply Nat.ltb_lt in L. rewrite L. now rewrite <- app_assoc.
Qed.

Lemma attempts_fault_exhausted attempt rest delay tr detail :
  client w image_path attempt = Fault detail ->
  ~ (attempt < max_retries - 1)%nat ->
  attempts w image_path (attempt :: rest) delay tr
  = (Ok (None, Some ("网络错误: " +:+ detail)), (tr ++ [Request image_path])%list).
Proof.
  intros H L. cbn [attempts]. unfold bind, emit, modify. rewrite H.
  apply Nat.ltb_nlt in L. now rewrite L.
Qed.

Lemma attempts_retried attempt rest delay tr :
  retried (client w image_path attempt) ->
  (attempt < max_retries - 1)%nat ->
  attempts w image_path (attempt :: rest) delay tr
  = attempts w image_path rest (delay * 2)
      (tr ++ [Request image_path; Sleep delay])%list.
Proof.
  intros R L. destruct (client w image_path attempt) as [r | code msg rid | detail] eqn:E.
  - destruct R.
  - now apply (attempts_retry attempt rest delay tr code msg rid).
  - now apply (attempts_fault_retry attempt rest delay tr detail).
Qed.

(** Past the size check and the read, the worker is its retry loop under the
    outer handler. *)
Lemma run_worker_ready :
  ready w image_path ->
  run_worker w image_path
  = match attempts w image_path [0; 1; 2]%nat 2 [] with
    | (Ok o, tr) => (Ok o, tr)
    | (Raise e, tr) => (Ok (None, Some ("处理错误: " +:+ str e)), tr)
    end.
Proof.
  intros [S [bytes R]]. unfold run_worker, process_image, try_except, bind, lift.
  rewrite S, R. cbn [negb seq max_retries]. reflexivity.
Qed.

(** The worker never lets an exception out: whatever is raised inside,
    [RuntimeError] included, meets the outer [except Exception]. *)
Lemma run_worker_returns : exists o, (run_worker w image_path).1 = Ok o.
Proof.
  unfold run_worker, process_image, try_except.
  match goal with |- context [match ?c [] with _ => _ end] => destruct (c []) as [[o | e] tr] end;
    eexists; reflexivity.
Qed.

End Attempts.

End WorkerFacts.

Module WorkerClaims.

Import Worker WorkerFacts.

(** C5.  An image whose size exceeds [MAX_IMAGE_SIZE], three times 1024 times
    1024 bytes, is answered with a failure, the over-3MB reason, and the
    worker has sent no request (and slept not at all) on the way. *)
Theorem oversize_image_rejected_unsent (w : World) (image_path : string) (file_size : Z) :
  getsize w image_path = Ok file_size ->
  file_size > 3 * 1024 * 1024 ->
  check_image_size w image_path = false
  /\ run_worker w image_path = (Ok (None, Some "图片超过3MB限制"), []).
Proof.
  intros G L.
  assert (S : check_image_size w image_path = false).
  { unfold check_image_size. rewrite G.
    replace (file_size >? MAX_IMAGE_SIZE) with true; [reflexivity |].
    symmetry. apply Z.gtb_lt. unfold MAX_IMAGE_SIZE. lia. }
  split; [exact S |].
  unfold run_worker, process_image, try_except. now rewrite S.
Qed.

Lemma oversize_image_rejected_unsent_witness :
  check_image_size Scenario.world "imgs/big.png" = false
  /\ run_worker Scenario.world "imgs/big.png" = (Ok (None, Some "图片超过3MB限制"), []).
Proof.
  apply (oversize_image_rejected_unsent Scenario.world "imgs/big.png" 4000000).
  - reflexivity.
  - reflexivity.
Defined.

(** C10.  When the size of the image cannot be read (the file is missing or
    unreadable, so [os.path.getsize] raises), the worker answers with the very
    reason it gives for an oversize image, and has sent no request. *)
Theorem unreadable_size_rejected_unsent (w : World) (image_path : string) (e : exn) :
  getsize w image_path = Raise e ->
  run_worker w image_path = (Ok (None, Some "图片超过3MB限制"), []).
Proof.
  intros G.
  assert (S : check_image_size w image_path = false).
  { unfold check_image_size. now rewrite G. }
  unfold run_worker, process_image, try_except. now rewrite S.
Qed.

Lemma unreadable_size_rejected_unsent_witness :
  run_worker Scenario.world "imgs/gone.png" = (Ok (None, Some "图片超过3MB限制"), []).
Proof.
  apply (unreadable_size_rejected_unsent Scenario.world "imgs/gone.png"
           (OtherException "[Errno 2] No such file or directory")).
  reflexivity.
Defined.

(** When the service answers the first request with a code of the
    non-retryable table, the worker has sent that one request only, has not
    slept, and returns a failure whose message is the friendly text of the
    code, the remediation hint (the code's own or the generic one) and the
    code. *)
Lemma terminal_code_single_request (w : World) (image_path : string)
    (code msg rid friendly : string) :
  ready w image_path ->
  client w image_path 0 = SdkError code msg rid ->
  non_retryable_errors !! code = Some friendly ->
  run_worker w image_path
  = (Ok (None, Some (friendly +:+ " | " +:+ suggestion_for code
                     +:+ " [错误码: " +:+ code +:+ "]")),
     [Request image_path]).
Proof.
  intros R H T. rewrite run_worker_ready by exact R.
  now rewrite (attempts_terminal w image_path _ _ _ _ code msg rid friendly H T).
Qed.

Lemma terminal_code_single_request_witness :
  run_worker Scenario.world "imgs/notable.png"
  = (Ok (None, Some "未检测到表格 | 建议：确保图片包含清晰的表格边框 [错误码: FailedOperation.OcrFailed.NoTable]"),
     [Request "imgs/notable.png"]).
Proof.
  apply (terminal_code_single_request Scenario.world "imgs/notable.png"
           "FailedOperation.OcrFailed.NoTable" "no table" "req-8" "未检测到表格").
  - split; [reflexivity | exists "bytes"; reflexivity].
  - reflexivity.
  - vm_compute. reflexivity.
Defined.

(** C3, as the code has it.  The retry branch is reached by the codes that are
    no key of the non-retryable table and do not start with [AuthFailure]
    (and by exceptions that are not the service's).  When the first two
    attempts are retried and the third ends in such a code, the worker has
    sent exactly three requests with sleeps of 2 and then 4 between them, and
    returns the retry-exhausted failure with the message and code of the last
    attempt; when the third ends in another exception the failure is the
    network-error one.  When an attempt succeeds after retried ones, the
    worker stops there with that result. *)
Theorem retryable_codes_three_attempts (w : World) (image_path : string) :
  ready w image_path ->
  (retried (client w image_path 0) ->
   retried (client w image_path 1) ->
   (forall code msg rid,
       client w image_path 2 = SdkError code msg rid ->
       retryable code ->
       run_worker w image_path
       = (Ok (None, Some ("重试失败: " +:+ msg +:+ " [错误码: " +:+ code +:+ "]")),
          full_schedule image_path))
   /\ (forall detail,
       client w image_path 2 = Fault detail ->
       run_worker w image_path
       = (Ok (None, Some ("网络错误: " +:+ detail)), full_schedule image_path)))
  /\ (forall n r,
      (n <= 2)%nat ->
      client w image_path n = Resp r ->
      (forall k, (k < n)%nat -> retried (client w image_path k)) ->
      run_worker w image_path
      = (Ok (Some r, None), take (2 * n + 1) (full_schedule image_path))).
Proof.
  intros R. rewrite run_worker_ready by exact R. split.
  - intros R0 R1.
    rewrite (attempts_retried w image_path _ _ _ _ R0) by (unfold max_retries; lia).
    rewrite (attempts_retried w image_path _ _ _ _ R1) by (unfold max_retries; lia).
    split.
    + intros code msg rid H2 R2.
      rewrite (attempts_exhausted w image_path _ _ _ _ code msg rid H2 R2)
        by (unfold max_retries; lia).
      reflexivity.
    + intros detail H2.
      rewrite (attempts_fault_exhausted w image_path _ _ _ _ detail H2)
        by (unfold max_retries; lia).
      reflexivity.
  - intros n r Hn Hr Hk.
    destruct n as [|[|[|n]]]; [| | | lia].
    + now rewrite (attempts_success w image_path _ _ _ _ r Hr).
    + rewrite (attempts_retried w image_path _ _ _ _ (Hk 0%nat ltac:(lia)))
        by (unfold max_retries; lia).
      now rewrite (attempts_success w image_path _ _ _ _ r Hr).
    + rewrite (attempts_retried w image_path _ _ _ _ (Hk 0%nat ltac:(lia)))
        by (unfold max_retries; lia).
      rewrite (attempts_retried w image_path _ _ _ _ (Hk 1%nat ltac:(lia)))
        by (unfold max_retries; lia).
      now rewrite (attempts_success w image_path _ _ _ _ r Hr).
Qed.

Lemma retryable_codes_three_attempts_witness :
  run_worker Scenario.world "imgs/busy.png"
  = (Ok (None, Some "重试失败: too many requests [错误码: RequestLimitExceeded]"),
     [Request "imgs/busy.png"; Sleep 2; Request "imgs/busy.png"; Sleep 4;
      Request "imgs/busy.png"]).
Proof.
  assert (R : ready Scenario.world "imgs/busy.png")
    by (split; [reflexivity | exists "bytes"; reflexivity]).
  assert (Q : retryable "RequestLimitExceeded")
    by (split; vm_compute; reflexivity).
  exact (proj1 (proj1 (retryable_codes_three_attempts Scenario.world "imgs/busy.png" R) Q Q)
           "RequestLimitExceeded" "too many requests" "req-7" eq_refl Q).
Defined.

(** A success on the second attempt, after an internal error. *)
Lemma flaky_service_succeeds_on_retry :
  run_worker Scenario.world "imgs/flaky.png"
  = (Ok (Some Scenario.table_result, None),
     [Request "imgs/flaky.png"; Sleep 2; Request "imgs/flaky.png"]).
Proof. vm_compute. reflexivity. Qed.

(** C9, what the code does.  For a code of the non-retryable table the
    worker sends one request, does not sleep, and returns the failure made of
    the friendly text, the remediation hint and the code.  The decode-failure
    code, Terminal as the specification classifies codes and with a
    remediation hint of its own among the worker's hints, is no key of that
    table: the worker retries it like any other code, sends three requests
    with sleeps of 2 and then 4 between them, and returns the retry-exhausted
    failure, which holds neither a friendly text nor the hint. *)
Theorem decode_failure_is_retried :
  (forall w image_path code msg rid friendly,
      ready w image_path ->
      client w image_path 0 = SdkError code msg rid ->
      non_retryable_errors !! code = Some friendly ->
      run_worker w image_path
      = (Ok (None, Some (friendly +:+ " | " +:+ suggestion_for code
                         +:+ " [错误码: " +:+ code +:+ "]")),
         [Request image_path]))
  /\ Classifier.spec_category "FailedOperation.ImageDecodeFailed" = Classifier.Terminal
  /\ error_guidance !! "FailedOperation.ImageDecodeFailed"
     = Some "建议：重新保存图片为标准JPEG/PNG格式"
  /\ non_retryable_errors !! "FailedOperation.ImageDecodeFailed" = None
  /\ Classifier.category "FailedOperation.ImageDecodeFailed" = Classifier.Retryable
  /\ (forall w image_path msg rid,
      ready w image_path ->
      (forall n, client w image_path n
                 = SdkError "FailedOperation.ImageDecodeFailed" msg rid) ->
      run_worker w image_path
      = (Ok (None, Some ("重试失败: " +:+ msg
                         +:+ " [错误码: FailedOperation.ImageDecodeFailed]")),
         [Request image_path; Sleep 2; Request image_path; Sleep 4; Request image_path]))
  /\ run_worker Scenario.world "imgs/undecodable.png"
     = (Ok (None, Some "重试失败: decode failed [错误码: FailedOperation.ImageDecodeFailed]"),
        [Request "imgs/undecodable.png"; Sleep 2; Request "imgs/undecodable.png"; Sleep 4;
         Request "imgs/undecodable.png"]).
Proof.
  split; [| do 4 (split; [vm_compute; reflexivity |]); split; [| vm_compute; reflexivity]].
  - intros w image_path code msg rid friendly R H T.
    now apply (terminal_code_single_request w image_path code msg rid friendly).
  - intros w image_path msg rid R H.
    assert (Q : retryable "FailedOperation.ImageDecodeFailed")
      by (split; vm_compute; reflexivity).
    assert (Rn : forall n, retried (client w image_path n)) by (intros n; now rewrite H).
    rewrite run_worker_ready by exact R.
    rewrite (attempts_retried w image_path _ _ _ _ (Rn 0%nat)) by (unfold max_retries; lia).
    rewrite (attempts_retried w image_path _ _ _ _ (Rn 1%nat)) by (unfold max_retries; lia).
    rewrite (attempts_exhausted w image_path _ _ _ _ _ msg rid (H 2%nat) Q)
      by (unfold max_retries; lia).
    reflexivity.
Qed.

(** C3, the counterexample.  The code [LimitExceeded] is Retryable as the
    specification classifies codes, and the worker's own label for a code
    that contains [LimitExceeded] is the rate-limit one; but it is a key of
    the non-retryable table, so the worker sends one request, does not sleep
    and returns the table's message.  A network fault, which the claim counts
    in the retryable set, is retried on the schedule but ends in the
    network-error failure, not the retry-exhausted one.  Hence the
    three-attempt schedule with the retry-exhausted failure does not hold for
    every code the specification calls retryable. *)
Lemma quota_code_is_not_retried :
  Classifier.spec_category "LimitExceeded" = Classifier.Retryable
  /\ error_type "LimitExceeded" = "限频错误"
  /\ Classifier.category "LimitExceeded" = Classifier.Terminal
  /\ run_worker Scenario.world "imgs/quota.png"
     = (Ok (None, Some "超过配额限制 | 建议：检查图片内容并重试 [错误码: LimitExceeded]"),
        [Request "imgs/quota.png"])
  /\ run_worker Scenario.world "imgs/offline.png"
     = (Ok (None, Some "网络错误: connection reset"), full_schedule "imgs/offline.png")
  /\ ~ (forall w image_path code msg rid,
          Classifier.spec_category code = Classifier.Retryable ->
          ready w image_path ->
          (forall n, client w image_path n = SdkError code msg rid) ->
          run_worker w image_path
          = (Ok (None, Some ("重试失败: " +:+ msg +:+ " [错误码: " +:+ code +:+ "]")),
             full_schedule image_path)).
Proof.
  do 5 (split; [vm_compute; reflexivity |]).
  intros H.
  specialize (H Scenario.world "imgs/quota.png" "LimitExceeded" "quota exceeded" "req-6").
  assert (E : (run_worker Scenario.world "imgs/quota.png").2 = full_schedule "imgs/quota.png").
  { rewrite H; [reflexivity | vm_compute; reflexivity | | intros n; reflexivity].
    split; [reflexivity | exists "bytes"; reflexivity]. }
  vm_compute in E. discriminate E.
Qed.

(** No code that starts with [AuthFailure] leaves the worker as an exception:
    a key of the table is answered as a terminal failure, and for any other
    the [RuntimeError] raised in the handler is caught by the worker's outer
    [except Exception] and returned as a processing error. *)
Lemma auth_code_returned_as_failure (w : World) (image_path : string)
    (code msg rid : string) :
  ready w image_path ->
  client w image_path 0 = SdkError code msg rid ->
  startswith code "AuthFailure" = true ->
  exists reason,
    run_worker w image_path = (Ok (None, Some reason), [Request image_path]).
Proof.
  intros R H A. rewrite run_worker_ready by exact R.
  destruct (non_retryable_errors !! code) as [friendly |] eqn:T.
  - rewrite (attempts_terminal w image_path _ _ _ _ code msg rid friendly H T).
    eexists; reflexivity.
  - rewrite (attempts_auth w image_path _ _ _ _ code msg rid H T A).
    eexists; reflexivity.
Qed.

(** C2, what the code does.  The three credential, signature and token codes
    are keys of the non-retryable table, which is tested before the
    [AuthFailure] prefix: they are classified Terminal and answered as the
    failure of one task.  A code outside the table that starts with
    [AuthFailure] is classified AuthFatal, but the exception raised for it
    does not leave the worker either. *)
Theorem auth_codes_classified_per_task :
  Classifier.category "AuthFailure.SecretIdNotFound" = Classifier.Terminal
  /\ Classifier.category "AuthFailure.SignatureFailure" = Classifier.Terminal
  /\ Classifier.category "AuthFailure.TokenFailure" = Classifier.Terminal
  /\ run_worker Scenario.world "imgs/badsig.png"
     = (Ok (None, Some "签名验证失败 | 建议：检查图片内容并重试 [错误码: AuthFailure.SignatureFailure]"),
        [Request "imgs/badsig.png"])
  /\ Classifier.category "AuthFailure.SignatureExpire" = Classifier.AuthFatal
  /\ run_worker Scenario.world "imgs/expired.png"
     = (Ok (None, Some "处理错误: 腾讯云认证错误: signature expired [错误码: AuthFailure.SignatureExpire]"),
        [Request "imgs/expired.png"]).
Proof. repeat split; vm_compute; reflexivity. Qed.

End WorkerClaims.

(** ** Grid builder *)

Module GridFacts.

Import Grid.

Lemma cell_step_dict acc cell :
  (cell_step acc cell).1
  = <[(RowTl cell + 1, ColTl cell + 1) := remove_newlines (Text cell)]> acc.1.
Proof.
  destruct acc as [d m]. unfold cell_step.
  destruct ((RowBr cell >? RowTl cell + 1) || (ColBr cell >? ColTl cell + 1)); reflexivity.
Qed.

(** The test of the loop is the test "more than one row or more than one
    column" on the zero-based bounds, whose ends are exclusive. *)
Lemma cell_step_merges acc cell :
  (cell_step acc cell).2
  = (acc.2 ++ if bool_decide (RowBr cell - RowTl cell > 1 \/ ColBr cell - ColTl cell > 1)
              then [(RowTl cell + 1, RowBr cell, ColTl cell + 1, ColBr cell)]
              else [])%list.
Proof.
  destruct acc as [d m]. unfold cell_step.
  destruct (RowBr cell >? RowTl cell + 1) eqn:R;
    destruct (ColBr cell >? ColTl cell + 1) eqn:C; simpl;
    rewrite ?Z.gtb_ltb in R, C;
    try apply Z.ltb_lt in R; try apply Z.ltb_ge in R;
    try apply Z.ltb_lt in C; try apply Z.ltb_ge in C.
  1-3: rewrite bool_decide_eq_true_2 by lia; reflexivity.
  rewrite bool_decide_eq_false_2 by lia. now rewrite app_nil_r.
Qed.

Lemma fold_merges cells acc :
  (foldl cell_step acc cells).2
  = (acc.2 ++ flat_map (fun cell =>
       if bool_decide (RowBr cell - RowTl cell > 1 \/ ColBr cell - ColTl cell > 1)
       then [(RowTl cell + 1, RowBr cell, ColTl cell + 1, ColBr cell)]
       else []) cells)%list.
Proof.
  revert acc; induction cells as [|c cells IH]; intros acc; simpl.
  - now rewrite app_nil_r.
  - rewrite IH, cell_step_merges. now rewrite <- app_assoc.
Qed.

Lemma fold_lookup_untouched cells acc (k : Z * Z) :
  (forall c, c ∈ cells -> (RowTl c + 1, ColTl c + 1) <> k) ->
  (foldl cell_step acc cells).1 !! k = acc.1 !! k.
Proof.
  revert acc; induction cells as [|c cells IH]; intros acc H; simpl; [reflexivity |].
  rewrite IH by (intros c' Hc'; apply H; now right).
  rewrite cell_step_dict. apply lookup_insert_ne. apply H. now left.
Qed.

Lemma fold_lookup_last before c after acc :
  (forall c', c' ∈ after -> (RowTl c' + 1, ColTl c' + 1) <> (RowTl c + 1, ColTl c + 1)) ->
  (foldl cell_step acc (before ++ c :: after)).1 !! (RowTl c + 1, ColTl c + 1)
  = Some (remove_newlines (Text c)).
Proof.
  intros H. rewrite foldl_app. simpl.
  rewrite fold_lookup_untouched by exact H.
  rewrite cell_step_dict. apply lookup_insert_eq.
Qed.

Lemma fold_occupied cells acc (k : Z * Z) :
  is_Some ((foldl cell_step acc cells).1 !! k)
  <-> is_Some (acc.1 !! k) \/ exists c, c ∈ cells /\ k = (RowTl c + 1, ColTl c + 1).
Proof.
  revert acc; induction cells as [|c cells IH]; intros acc; simpl.
  - split; [now left | intros [H | (c & Hc & _)]; [exact H | inversion Hc]].
  - rewrite IH, cell_step_dict. split.
    + intros [H | (c' & Hc' & E)].
      * destruct (decide ((RowTl c + 1, ColTl c + 1) = k)) as [E | N].
        -- right. exists c. split; [now left | now symmetry].
        -- left. now rewrite lookup_insert_ne in H.
      * right. exists c'. split; [now right | exact E].
    + intros [H | (c' & Hc' & E)].
      * left. destruct (decide ((RowTl c + 1, ColTl c + 1) = k)) as [E | N].
        -- subst k. rewrite lookup_insert_eq. eauto.
        -- now rewrite lookup_insert_ne.
      * apply elem_of_cons in Hc' as [-> | Hc'].
        -- left. subst k. rewrite lookup_insert_eq. eauto.
        -- right. exists c'. split; assumption.
Qed.

Lemma alter_last {A} (f : A -> A) (l : list A) (x : A) :
  alter f (length l) (l ++ [x])%list = (l ++ [f x])%list.
Proof.
  induction l as [|y l IH]; simpl; [reflexivity |].
  f_equal. exact IH.
Qed.

(** The builder always returns: its handler turns every exception into a
    failure. *)
Lemma create_worksheet_returns w base_name result book :
  exists success reason book',
    create_worksheet w base_name result book = (Ok (success, reason), book').
Proof.
  unfold create_worksheet, try_except.
  match goal with |- context [match ?c book with _ => _ end] =>
    destruct (c book) as [[[s r] | e] b] end; repeat eexists.
Qed.

(** Without the key, or with fewer than two regions, the builder leaves the
    workbook alone. *)
Lemma create_worksheet_skip w base_name result book :
  (TableDetections result = Absent
   \/ exists tds, TableDetections result = Value tds /\ (length tds < 2)%nat) ->
  create_worksheet w base_name result book = (Ok (false, Some no_table_msg), book).
Proof.
  intros [N | (tds & E & L)]; unfold create_worksheet, try_except.
  - now rewrite N.
  - rewrite E. apply Nat.ltb_lt in L. now rewrite L.
Qed.

(** With [null] for the regions, [len] raises before any sheet is created. *)
Lemma create_worksheet_null w base_name result book :
  TableDetections result = Null ->
  create_worksheet w base_name result book
  = (Ok (false, Some ("创建工作表出错: " +:+ len_None_msg)), book).
Proof.
  intros N. unfold create_worksheet, try_except. now rewrite N.
Qed.

(** With two regions or more, the builder reads the region at index 1 and
    nothing else of the result. *)
Lemma create_worksheet_region_one w base_name result book r0 r1 rest :
  TableDetections result = Value (r0 :: r1 :: rest) ->
  create_worksheet w base_name result book
  = create_worksheet w base_name
      {| TableDetections := Value [r1; r1]; RequestId := Absent |} book.
Proof.
  intros T. unfold create_worksheet. rewrite T. reflexivity.
Qed.

End GridFacts.

Module GridClaims.

Import Grid GridFacts.

(** C6.  For the cells of the main table, in the order reported:
    - a coordinate holds a value exactly when it is the top-left of some
      cell, the zero-based starts plus one;
    - the value at a cell's top-left is its text without line feeds (of the
      last cell reported there, when several share it);
    - the merges are, in order, one range per cell that spans more than one
      row or more than one column, from the 1-based top-left to the reported
      ends taken as they are;
    - the cell with bounds rowStart 0, rowEnd 2, colStart 0, colEnd 1 gives
      the value at (1,1) only and the merge of rows 1 to 2 in column 1. *)
Theorem cells_fill_top_left_and_merge (cells : list Cell) :
  (forall k : Z * Z,
      is_Some ((fill_cells cells).1 !! k)
      <-> exists c, c ∈ cells /\ k = (RowTl c + 1, ColTl c + 1))
  /\ (forall before c after,
      cells = (before ++ c :: after)%list ->
      (forall c', c' ∈ after ->
         (RowTl c' + 1, ColTl c' + 1) <> (RowTl c + 1, ColTl c + 1)) ->
      (fill_cells cells).1 !! (RowTl c + 1, ColTl c + 1) = Some (remove_newlines (Text c))
      /\ ~ In "010"%char (list_ascii_of_string (remove_newlines (Text c))))
  /\ (fill_cells cells).2
     = flat_map (fun c =>
         if bool_decide (RowBr c - RowTl c > 1 \/ ColBr c - ColTl c > 1)
         then [(RowTl c + 1, RowBr c, ColTl c + 1, ColBr c)]
         else []) cells
  /\ (forall text,
      fill_cells [ {| RowTl := 0; RowBr := 2; ColTl := 0; ColBr := 1; Text := text |} ]
      = ({[ (1, 1) := remove_newlines text ]}, [(1, 2, 1, 1)])).
Proof.
  unfold fill_cells. repeat split.
  - intros H. apply fold_occupied in H as [[x H] | H]; [| exact H].
    simpl in H. now rewrite lookup_empty in H.
  - intros H. apply fold_occupied. now right.
  - subst cells. now apply fold_lookup_last.
  - apply PyFacts.remove_newlines_clean.
  - now rewrite fold_merges.
Qed.

Lemma cells_fill_top_left_and_merge_witness :
  (fill_cells [Scenario.tall_cell; Scenario.plain_cell]).1 !! (1, 1) = Some "ab"
  /\ ~ In "010"%char (list_ascii_of_string "ab").
Proof.
  exact (proj1 (proj2 (cells_fill_top_left_and_merge [Scenario.tall_cell; Scenario.plain_cell]))
           [] Scenario.tall_cell [Scenario.plain_cell] eq_refl
           ltac:(intros c' Hc'; apply list_elem_of_singleton in Hc'; subst c';
                 vm_compute; discriminate)).
Defined.

(** C7.  A result whose regions are [null], as the service leaves them when
    it detects none, holds fewer than two regions, yet the builder does not
    skip it with the no-valid-table-data reason: the length test raises and
    the handler reports a builder error, another reason; no sheet is created.
    A result without the key, or with a list of fewer than two regions, is
    skipped with the no-valid-table-data reason, the workbook left as it was.
    With two regions or more the builder works on the region at index 1 and
    on nothing else of the result. *)
Theorem null_regions_not_skipped_as_no_table (w : World) (base_name : string)
    (book : Workbook) :
  (forall rid,
      create_worksheet w base_name {| TableDetections := Null; RequestId := rid |} book
      = (Ok (false, Some "创建工作表出错: object of type 'NoneType' has no len()"), book)
      /\ "创建工作表出错: object of type 'NoneType' has no len()" <> "未识别到有效的表格数据")
  /\ (forall result,
      (TableDetections result = Absent
       \/ exists tds, TableDetections result = Value tds /\ (length tds < 2)%nat) ->
      create_worksheet w base_name result book
      = (Ok (false, Some "未识别到有效的表格数据"), book))
  /\ (forall r0 r1 rest rid,
      create_worksheet w base_name
        {| TableDetections := Value (r0 :: r1 :: rest); RequestId := rid |} book
      = create_worksheet w base_name
          {| TableDetections := Value [r1; r1]; RequestId := Absent |} book).
Proof.
  split; [| split].
  - intros rid. split; [| discriminate].
    now apply create_worksheet_null.
  - intros result H. now apply create_worksheet_skip.
  - intros r0 r1 rest rid. now apply (create_worksheet_region_one w base_name _ book r0 r1 rest).
Qed.

End GridClaims.

(** ** Checkpointed writer and batch coordinator *)

Module CoordinatorFacts.

Import Coordinator.

(** Lay one turn of the draining loop open. *)
Ltac open_complete :=
  unfold complete, try_except, bind, lift, modify, get, ret, on_workbook.

(** Name the outcome of the grid builder inside a turn of the loop. *)
Ltac name_worksheet w s img_path r success reason book :=
  destruct (GridFacts.create_worksheet_returns w (splitext (basename img_path)).1 r
              (default [] (wb (ensure_workbook (count_processed s)))))
    as (success & reason & book & ->).

(** A checkpoint never has the path of the final workbook. *)
Lemma temp_path_differs (output_path : string) (batch_num : Z) :
  temp_path output_path batch_num <> output_path.
Proof.
  unfold temp_path. pose proof (PyFacts.splitext_append output_path) as E.
  destruct (splitext output_path) as [base_name ext]. simpl in E.
  intros C. apply (f_equal String.length) in C. rewrite <- E in C.
  rewrite !PyFacts.length_append in C. simpl in C. lia.
Qed.

Lemma ensure_workbook_default (s : MainState) :
  default [] (wb (ensure_workbook (count_processed s))) = default [] (wb s).
Proof.
  destruct s as [[book |] ? ? ? ? ?]; reflexivity.
Qed.

(** One completion writes at most a checkpoint. *)
Lemma complete_disk w output_path batch_size img_path future s :
  disk (complete w output_path batch_size img_path future s).2 = disk s
  \/ exists n book,
       disk (complete w output_path batch_size img_path future s).2
       = (disk s ++ [(temp_path output_path n, book)])%list.
Proof.
  open_complete.
  destruct future as [[[r |] error_msg] | [m | m]]; try (left; reflexivity).
  destruct (truthy r); [| left; reflexivity].
  cbv beta iota.
  name_worksheet w s img_path r success reason book.
  destruct s as [[book0 |] pc sc bc ff dk].
  all: destruct success; [| left; reflexivity].
  all: cbn.
  all: destruct (bc + 1 >=? batch_size); [| left; reflexivity].
  all: unfold floordiv; destruct (batch_size =? 0)%Z; [left; reflexivity |].
  all: cbn; unfold save_workbook.
  all: destruct (wb_save w _ book); [right; eauto | left; reflexivity].
Qed.

Lemma drain_keeps_output_path w output_path batch_size completions s :
  output_path ∉ (disk s).*1 ->
  output_path ∉ (disk (drain w output_path batch_size completions s).2).*1.
Proof.
  revert s; induction completions as [|[img_path future] rest IH]; intros s H; [exact H |].
  cbn [drain]. unfold bind.
  pose proof (complete_disk w output_path batch_size img_path future s) as D.
  assert (K : output_path ∉
              (disk (complete w output_path batch_size img_path future s).2).*1).
  { destruct D as [-> | (n & book & ->)]; [exact H |].
    rewrite fmap_app. intros [I | I]%elem_of_app; [exact (H I) |].
    apply list_elem_of_singleton in I. simpl in I.
    exact (temp_path_differs output_path n (eq_sym I)). }
  destruct (complete w output_path batch_size img_path future s) as [[[|] | e] s1];
    cbn [snd] in K; [apply IH | |]; exact K.
Qed.

(** The handler of [RuntimeError] in the draining loop: the completion is
    counted and [main] returns, with nothing recorded for the task. *)
Lemma complete_runtime_error w output_path batch_size img_path msg s :
  complete w output_path batch_size img_path (Raise (RuntimeError msg)) s
  = (Ok Return, count_processed s).
Proof. reflexivity. Qed.

(** A future that holds a returned pair never ends the loop. *)
Lemma complete_returned_next w output_path batch_size img_path outcome s :
  exists s', complete w output_path batch_size img_path (Ok outcome) s = (Ok Next, s').
Proof.
  open_complete.
  destruct outcome as [[r |] error_msg]; [| eexists; reflexivity].
  destruct (truthy r); [| eexists; reflexivity].
  cbv beta iota.
  name_worksheet w s img_path r success reason book.
  destruct s as [[book0 |] pc sc bc ff dk].
  all: destruct success; [| eexists; reflexivity].
  all: cbn.
  all: destruct (bc + 1 >=? batch_size); [| eexists; reflexivity].
  all: unfold floordiv; destruct (batch_size =? 0)%Z; eexists; reflexivity.
Qed.

(** Each returned future is counted once: as a success, or with one failure
    record under the name of its image.  A threshold of zero is set aside: the
    division by it raises after the success was counted. *)
Lemma complete_counts_once w output_path batch_size img_path outcome s :
  batch_size <> 0 ->
  let s' := (complete w output_path batch_size img_path (Ok outcome) s).2 in
  processed_count s' = processed_count s + 1
  /\ ((success_count s' = success_count s + 1 /\ failed_files s' = failed_files s)
      \/ (success_count s' = success_count s
          /\ exists reason,
               failed_files s' = (failed_files s ++ [(basename img_path, reason)])%list)).
Proof.
  intros NZ.
  open_complete.
  destruct outcome as [[r |] error_msg].
  2: { destruct s; cbn; split; [reflexivity | right; eauto]. }
  destruct (truthy r).
  2: { destruct s; cbn; split; [reflexivity | right; eauto]. }
  cbv beta iota.
  name_worksheet w s img_path r success reason book.
  destruct s as [[book0 |] pc sc bc ff dk].
  all: destruct success; [| cbn; split; [reflexivity | right; eauto]].
  all: cbn.
  all: destruct (bc + 1 >=? batch_size); [| cbn; split; [reflexivity | left; split; reflexivity]].
  all: unfold floordiv;
    replace (batch_size =? 0)%Z with false by (symmetry; apply Z.eqb_neq; exact NZ).
  all: cbn; split; [reflexivity | left; split; reflexivity].
Qed.

(** The futures of the workers: all of them hold a returned pair. *)
Lemma drain_workers_next w output_path batch_size arrival s :
  exists s',
    drain w output_path batch_size
      (map (fun p => (p, (Worker.run_worker w p).1)) arrival) s = (Ok Next, s').
Proof.
  revert s; induction arrival as [|p arrival IH]; intros s; [eexists; reflexivity |].
  cbn [map drain]. unfold bind.
  destruct (WorkerFacts.run_worker_returns w p) as [o ->].
  destruct (complete_returned_next w output_path batch_size p o s) as [s1 ->].
  apply IH.
Qed.

(** With a threshold other than zero the draining loop accounts for every
    completion: successes and failure records add up to the completions. *)
Lemma drain_counts_once w output_path batch_size arrival s :
  batch_size <> 0 ->
  let s' := (drain w output_path batch_size
               (map (fun p => (p, (Worker.run_worker w p).1)) arrival) s).2 in
  processed_count s' = processed_count s + Z.of_nat (length arrival)
  /\ success_count s' + Z.of_nat (length (failed_files s'))
     = success_count s + Z.of_nat (length (failed_files s)) + Z.of_nat (length arrival).
Proof.
  intros NZ. revert s; induction arrival as [|p arrival IH]; intros s.
  - cbn. lia.
  - cbn [map drain]. unfold bind.
    destruct (WorkerFacts.run_worker_returns w p) as [o ->].
    pose proof (complete_counts_once w output_path batch_size p o s NZ) as C.
    destruct (complete_returned_next w output_path batch_size p o s) as [s1 E].
    rewrite E in C |- *. cbn [snd] in C. cbv zeta in C.
    specialize (IH s1). cbv zeta in IH. destruct IH as [IH1 IH2].
    destruct C as [C1 C2]. cbv zeta. cbn [length]. split; [lia |].
    destruct C2 as [[S F] | [S [reason F]]].
    + rewrite S, F in IH2. lia.
    + rewrite S, F in IH2. rewrite length_app in IH2. cbn [length] in IH2. lia.
Qed.

End CoordinatorFacts.

Module CoordinatorClaims.

Import Coordinator CoordinatorFacts.



(** C1, what the code does.  No run ends in the [RuntimeError] handler of the
    draining loop, since no worker lets an exception out: every run that has
    images goes on to the final save and the summary.  In the run of three
    images whose second meets [AuthFailure.SignatureExpire], a failure record
    is added for that image, the image completed after it still adds its
    sheet, and the workbook is saved to the output path. *)
Theorem auth_error_does_not_end_run :
  (forall w output_path batch_size image_files arrival,
      how (main w output_path batch_size image_files arrival)
      = match image_files with [] => NothingToDo | _ => Finished end)
  /\ how Scenario.auth_run = Finished
  /\ failed_files (state Scenario.auth_run)
     = [("expired.png",
         Some "处理错误: 腾讯云认证错误: signature expired [错误码: AuthFailure.SignatureExpire]")]
  /\ (map title <$> wb (state Scenario.auth_run)) = Some ["a"; "b"]
  /\ map (fun file => (file.1, map title file.2)) (disk (state Scenario.auth_run))
     = [("out/res.xlsx", ["a"; "b"])].
Proof.
  split.
  - intros w output_path batch_size [|p image_files] arrival; [reflexivity |].
    unfold main.
    destruct (drain_workers_next w output_path batch_size arrival initial) as [s' ->].
    reflexivity.
  - repeat split; vm_compute; reflexivity.
Qed.

(** C4, what the code does.  In the run on the one image whose main table has
    no cell, the sheet is created before [max] raises on the empty list of
    cells: the task is recorded as a failure, is not counted as a success, and
    its sheet stays in the workbook that the final save writes. *)
Theorem empty_table_gives_sheet_and_failure :
  how Scenario.empty_table_run = Finished
  /\ wb (state Scenario.empty_table_run)
     = Some [Grid.set_widths (Grid.new_sheet "empty")]
  /\ failed_files (state Scenario.empty_table_run)
     = [("empty.png", Some "创建工作表出错: max() arg is an empty sequence")]
  /\ success_count (state Scenario.empty_table_run) = 0
  /\ disk (state Scenario.empty_table_run)
     = [("out/res.xlsx", [Grid.set_widths (Grid.new_sheet "empty")])].
Proof. repeat split; vm_compute; reflexivity. Qed.

(** A threshold of zero: the success is counted and the sheet added, then the
    division for the checkpoint number raises and the loop's handler records
    the image as a failure. *)
Lemma zero_threshold_success_recorded_as_failure :
  how Scenario.zero_threshold_run = Finished
  /\ success_count (state Scenario.zero_threshold_run) = 1
  /\ failed_files (state Scenario.zero_threshold_run)
     = [("a.png", Some "integer division or modulo by zero")]
  /\ map (fun file => (file.1, map title file.2)) (disk (state Scenario.zero_threshold_run))
     = [("out/res.xlsx", ["a"])].
Proof. repeat split; vm_compute; reflexivity. Qed.

End CoordinatorClaims.

(** * Further properties *)

(** ** Recognition worker *)

Module WorkerMore.

Import Worker WorkerFacts.

Section Steps.

Variable w : World.
Variable image_path : string.

(** One attempt either sends the loop on (a retried response, with attempts
    left) or ends it, after its request and nothing else. *)
Lemma attempts_step attempt rest delay tr :
  (retried (client w image_path attempt)
   /\ (attempt < max_retries - 1)%nat
   /\ attempts w image_path (attempt :: rest) delay tr
      = attempts w image_path rest (delay * 2)
          (tr ++ [Request image_path; Sleep delay])%list)
  \/ (exists o,
        attempts w image_path (attempt :: rest) delay tr
        = (o, (tr ++ [Request image_path])%list)
        /\ match o with
           | Ok (Some r, None) => client w image_path attempt = Resp r
           | Ok (None, Some _) => forall r, client w image_path attempt <> Resp r
           | Raise (RuntimeError _) => forall r, client w image_path attempt <> Resp r
           | _ => False
           end).
Proof.
  destruct (client w image_path attempt) as [r | code msg rid | detail] eqn:E.
  - right. eexists. split; [exact (attempts_success w image_path _ _ _ _ _ E) |]. reflexivity.
  - destruct (non_retryable_errors !! code) as [friendly |] eqn:T.
    + right. eexists. split; [exact (attempts_terminal w image_path _ _ _ _ _ _ _ _ E T) |].
      cbv beta iota. discriminate.
    + destruct (startswith code "AuthFailure") eqn:A.
      * right. eexists. split; [exact (attempts_auth w image_path _ _ _ _ _ _ _ E T A) |].
        cbv beta iota. discriminate.
      * destruct (lt_dec attempt (max_retries - 1)) as [L | L].
        -- left. split; [now split |]. split; [exact L |].
           exact (attempts_retry w image_path _ _ _ _ _ _ _ E (conj T A) L).
        -- right. eexists.
           split; [exact (attempts_exhausted w image_path _ _ _ _ _ _ _ E (conj T A) L) |].
           cbv beta iota. discriminate.
  - destruct (lt_dec attempt (max_retries - 1)) as [L | L].
    + left. split; [exact I |]. split; [exact L |].
      exact (attempts_fault_retry w image_path _ _ _ _ _ E L).
    + right. eexists.
      split; [exact (attempts_fault_exhausted w image_path _ _ _ _ _ E L) |].
      cbv beta iota. discriminate.
Qed.

(** The three attempts of a worker: it stops at some attempt [n], all
    earlier ones retried, having sent [n + 1] requests and slept in between. *)
Lemma three_attempts :
  exists n o,
    (n <= 2)%nat
    /\ (forall k, (k < n)%nat -> retried (client w image_path k))
    /\ attempts w image_path [0; 1; 2]%nat 2 []
       = (o, take (2 * n + 1) (full_schedule image_path))
    /\ match o with
       | Ok (Some r, None) => client w image_path n = Resp r
       | Ok (None, Some _) => forall r, client w image_path n <> Resp r
       | Raise (RuntimeError _) => forall r, client w image_path n <> Resp r
       | _ => False
       end.
Proof.
  destruct (attempts_step 0 [1; 2]%nat 2 []) as [(R0 & _ & E0) | (o & E & S)];
    cbn [app] in *.
  2: { exists 0%nat, o. repeat split; [lia | intros k Hk; lia | exact E | exact S]. }
  destruct (attempts_step 1 [2]%nat (2 * 2) [Request image_path; Sleep 2])
    as [(R1 & _ & E1) | (o & E & S)]; cbn [app] in *.
  2: { exists 1%nat, o. repeat split; [lia | | rewrite E0, E; reflexivity | exact S].
       intros k Hk. now replace k with 0%nat by lia. }
  destruct (attempts_step 2 [] (2 * 2 * 2)
              [Request image_path; Sleep 2; Request image_path; Sleep (2 * 2)])
    as [(_ & L & _) | (o & E & S)]; cbn [app] in *.
  { unfold max_retries in L. lia. }
  exists 2%nat, o. repeat split; [lia | | rewrite E0, E1, E; reflexivity | exact S].
  intros k Hk. destruct k as [|[|k]]; [exact R0 | exact R1 | lia].
Qed.

(** Every way a worker can go. *)
Lemma run_worker_cases :
  (~ ready w image_path
   /\ exists msg, run_worker w image_path = (Ok (None, Some msg), []))
  \/ (ready w image_path
      /\ exists n o,
           (n <= 2)%nat
           /\ (forall k, (k < n)%nat -> retried (client w image_path k))
           /\ run_worker w image_path
              = (Ok o, take (2 * n + 1) (full_schedule image_path))
           /\ match o with
              | (Some r, None) => client w image_path n = Resp r
              | (None, Some _) => forall r, client w image_path n <> Resp r
              | _ => False
              end).
Proof.
  destruct (check_image_size w image_path) eqn:S.
  2: { left. split; [intros [C _]; congruence |].
       eexists. unfold run_worker, process_image, try_except. now rewrite S. }
  destruct (read_image w image_path) as [bytes | e] eqn:R.
  2: { left. split; [intros [_ [b C]]; congruence |].
       eexists. unfold run_worker, process_image, try_except, bind, lift.
       rewrite S, R. reflexivity. }
  right. assert (Rd : ready w image_path) by (split; [exact S | eauto]).
  split; [exact Rd |].
  rewrite run_worker_ready by exact Rd.
  destruct three_attempts as (n & o & Hn & Hk & E & Sh).
  rewrite E. destruct o as [[[r |] [m |]] | [m | m]]; try contradiction.
  - exists n, (Some r, None). auto.
  - exists n, (None, Some m). auto.
  - exists n, (None, Some ("处理错误: " +:+ str (RuntimeError m))). auto.
Qed.

End Steps.

End WorkerMore.

Module WorkerExtras.

Import Worker WorkerFacts WorkerMore.

(** X1.  Whatever the file system and the service do, the worker returns a
    pair and lets no exception out, and the pair holds either a result and no
    message or no result and a message. *)
Theorem worker_returns_result_or_reason (w : World) (image_path : string) :
  exists tr,
    (exists r, run_worker w image_path = (Ok (Some r, None), tr))
    \/ (exists msg, run_worker w image_path = (Ok (None, Some msg), tr)).
Proof.
  destruct (run_worker_cases w image_path) as [[_ [msg E]] | [_ H]].
  - exists []. right. eauto.
  - destruct H as (n & [[r |] [m |]] & _ & _ & E & S); try contradiction.
    + eexists. left. eauto.
    + eexists. right. eauto.
Qed.

(** X2.  A worker sends at most three requests.  What it does is a beginning
    of request, sleep 2, request, sleep 4, request that ends on a request (or
    nothing at all): it never sleeps after its last request, never sleeps
    longer than 4, and never sleeps more than 6 in all. *)
Theorem worker_sends_at_most_three_requests (w : World) (image_path : string) :
  exists n,
    (n <= 3)%nat
    /\ (run_worker w image_path).2 = take (2 * n - 1) (full_schedule image_path).
Proof.
  destruct (run_worker_cases w image_path) as [[_ [msg E]] | [_ H]].
  - exists 0%nat. rewrite E. split; [lia | reflexivity].
  - destruct H as (n & o & Hn & _ & E & _). exists (S n). rewrite E.
    split; [lia |]. cbn [snd]. f_equal. lia.
Qed.

(** X3.  The size check passes exactly when the size can be read and is at
    most 3 * 1024 * 1024 bytes: an image of exactly that size is accepted. *)
Theorem size_check_accepts_up_to_limit (w : World) (image_path : string) :
  check_image_size w image_path = true
  <-> exists file_size, getsize w image_path = Ok file_size /\ file_size <= 3 * 1024 * 1024.
Proof.
  unfold check_image_size, MAX_IMAGE_SIZE. split.
  - destruct (getsize w image_path) as [file_size | e]; [| discriminate].
    destruct (file_size >? 3 * 1024 * 1024) eqn:G; [discriminate |].
    intros _. exists file_size. split; [reflexivity |].
    rewrite Z.gtb_ltb in G. apply Z.ltb_ge in G. exact G.
  - intros (file_size & -> & L).
    replace (file_size >? 3 * 1024 * 1024) with false; [reflexivity |].
    symmetry. rewrite Z.gtb_ltb. apply Z.ltb_ge. exact L.
Qed.

(** X4.  When the image passes the size check but its bytes cannot be read,
    the worker returns the processing-error failure with the text of the
    exception, and has sent no request. *)
Theorem unreadable_image_rejected_unsent (w : World) (image_path : string) (e : exn) :
  check_image_size w image_path = true ->
  read_image w image_path = Raise e ->
  run_worker w image_path = (Ok (None, Some ("处理错误: " +:+ str e)), []).
Proof.
  intros S R. unfold run_worker, process_image, try_except, bind, lift.
  now rewrite S, R.
Qed.

Lemma unreadable_image_rejected_unsent_witness :
  run_worker Cases.world "imgs/locked.png"
  = (Ok (None, Some "处理错误: [Errno 13] Permission denied"), []).
Proof.
  apply (unreadable_image_rejected_unsent Cases.world "imgs/locked.png"
           (OtherException "[Errno 13] Permission denied")).
  - reflexivity.
  - reflexivity.
Defined.

(** X5.  A code of the non-retryable table ends the retries at whatever
    attempt it comes: after [n] retried attempts the worker has sent
    [n + 1] requests, does not sleep again, and returns the table's message
    with the hint and the code. *)
Theorem terminal_code_ends_retries (w : World) (image_path : string) (n : nat)
    (code msg rid friendly : string) :
  ready w image_path ->
  (n <= 2)%nat ->
  (forall k, (k < n)%nat -> retried (client w image_path k)) ->
  client w image_path n = SdkError code msg rid ->
  non_retryable_errors !! code = Some friendly ->
  run_worker w image_path
  = (Ok (None, Some (friendly +:+ " | " +:+ suggestion_for code
                     +:+ " [错误码: " +:+ code +:+ "]")),
     take (2 * n + 1) (full_schedule image_path)).
Proof.
  intros R Hn Hk H T. rewrite run_worker_ready by exact R.
  destruct n as [|[|[|n]]]; [| | | lia].
  - now rewrite (attempts_terminal w image_path _ _ _ _ _ _ _ _ H T).
  - rewrite (attempts_retried w image_path _ _ _ _ (Hk 0%nat ltac:(lia)))
      by (unfold max_retries; lia).
    now rewrite (attempts_terminal w image_path _ _ _ _ _ _ _ _ H T).
  - rewrite (attempts_retried w image_path _ _ _ _ (Hk 0%nat ltac:(lia)))
      by (unfold max_retries; lia).
    rewrite (attempts_retried w image_path _ _ _ _ (Hk 1%nat ltac:(lia)))
      by (unfold max_retries; lia).
    now rewrite (attempts_terminal w image_path _ _ _ _ _ _ _ _ H T).
Qed.

Lemma terminal_code_ends_retries_witness :
  run_worker Cases.world "imgs/late.png"
  = (Ok (None, Some "未检测到表格 | 建议：确保图片包含清晰的表格边框 [错误码: FailedOperation.OcrFailed.NoTable]"),
     [Request "imgs/late.png"; Sleep 2; Request "imgs/late.png"]).
Proof.
  apply (terminal_code_ends_retries Cases.world "imgs/late.png" 1
           "FailedOperation.OcrFailed.NoTable" "no table" "req-21" "未检测到表格").
  - split; [reflexivity | exists "bytes"; reflexivity].
  - lia.
  - intros k Hk. replace k with 0%nat by lia. split; vm_compute; reflexivity.
  - reflexivity.
  - vm_compute. reflexivity.
Defined.

(** X6.  A result comes only from the service: when the worker returns one,
    the image passed the size check and was read, some attempt among the
    three was answered with exactly that result, every attempt before it was
    retried, and no message goes with it. *)
Theorem worker_result_is_service_response (w : World) (image_path : string)
    (r : RawResult) (error_msg : option string) :
  (run_worker w image_path).1 = Ok (Some r, error_msg) ->
  error_msg = None
  /\ ready w image_path
  /\ exists n,
       (n <= 2)%nat
       /\ client w image_path n = Resp r
       /\ forall k, (k < n)%nat -> retried (client w image_path k).
Proof.
  intros H.
  destruct (run_worker_cases w image_path) as [[_ [msg E]] | [Rd Hc]].
  - rewrite E in H. discriminate H.
  - destruct Hc as (n & [[r' |] [m |]] & Hn & Hk & E & S); try contradiction;
      rewrite E in H; cbn [fst] in H; [| discriminate H].
    injection H as -> <-. split; [reflexivity |]. split; [exact Rd |]. exists n. auto.
Qed.

Lemma worker_result_is_service_response_witness :
  @None string = None
  /\ ready Scenario.world "imgs/flaky.png"
  /\ exists n,
       (n <= 2)%nat
       /\ client Scenario.world "imgs/flaky.png" n = Resp Scenario.table_result
       /\ forall k, (k < n)%nat -> retried (client Scenario.world "imgs/flaky.png" k).
Proof.
  apply (worker_result_is_service_response Scenario.world "imgs/flaky.png"
           Scenario.table_result None).
  vm_compute. reflexivity.
Defined.

End WorkerExtras.

(** ** Grid builder *)

Module GridMore.

Import Grid GridFacts.

Lemma foldl_max_bounds (l : list Z) (x : Z) :
  x <= foldl Z.max x l /\ forall y, y ∈ l -> y <= foldl Z.max x l.
Proof.
  revert x; induction l as [|z l IH]; intros x; simpl.
  - split; [lia | intros y Hy; inversion Hy].
  - destruct (IH (Z.max x z)) as [B1 B2]. split; [lia |].
    intros y [-> | Hy]%elem_of_cons; [lia | now apply B2].
Qed.

Lemma elem_of_flat_map {A B} (f : A -> list B) (l : list A) (y : B) :
  y ∈ flat_map f l <-> exists x, x ∈ l /\ y ∈ f x.
Proof.
  rewrite list_elem_of_In, in_flat_map. split; intros (x & H1 & H2); exists x.
  - now rewrite !list_elem_of_In.
  - now rewrite <- !list_elem_of_In.
Qed.

Lemma NoDup_flat_map {A B} (f : A -> list B) (l : list A) :
  NoDup l ->
  (forall x, NoDup (f x)) ->
  (forall x x' y, y ∈ f x -> y ∈ f x' -> x = x') ->
  NoDup (flat_map f l).
Proof.
  intros Hl Hf Hinj. induction Hl as [|x l Hx Hl IH]; simpl; [constructor |].
  apply NoDup_app. split; [apply Hf |]. split; [| exact IH].
  intros y Hy (x' & Hx' & Hy')%elem_of_flat_map.
  rewrite (Hinj x x' y Hy Hy') in Hx. exact (Hx Hx').
Qed.

(** The alignment pass visits the box row by row and keeps the coordinates
    that hold a value. *)
Lemma elem_of_occupied_in_box (max_row max_col : Z) (cell_dict : gmap (Z * Z) string) (k : Z * Z) :
  k ∈ occupied_in_box max_row max_col cell_dict
  <-> 1 <= k.1 <= max_row /\ 1 <= k.2 <= max_col /\ is_Some (cell_dict !! k).
Proof.
  unfold occupied_in_box. rewrite elem_of_flat_map. split.
  - intros (row & Hr & (col & Hc & Hk)%elem_of_flat_map).
    apply elem_of_seqZ in Hr, Hc.
    destruct (bool_decide (is_Some (cell_dict !! (row, col)))) eqn:D; [| inversion Hk].
    apply list_elem_of_singleton in Hk. subst k. apply bool_decide_eq_true_1 in D.
    simpl. repeat split; try lia. exact D.
  - intros (Hr & Hc & Hs). destruct k as [row col]. simpl in Hr, Hc.
    exists row. split; [apply elem_of_seqZ; lia |].
    apply elem_of_flat_map. exists col. split; [apply elem_of_seqZ; lia |].
    rewrite bool_decide_eq_true_2 by exact Hs. now left.
Qed.

Lemma NoDup_occupied_in_box (max_row max_col : Z) (cell_dict : gmap (Z * Z) string) :
  NoDup (occupied_in_box max_row max_col cell_dict).
Proof.
  unfold occupied_in_box. apply NoDup_flat_map; [apply NoDup_seqZ | |].
  - intros row. apply NoDup_flat_map; [apply NoDup_seqZ | |].
    + intros col. destruct (bool_decide _); [apply NoDup_singleton | constructor].
    + intros col col' y Hy Hy'.
      destruct (bool_decide (is_Some (cell_dict !! (row, col)))); [| inversion Hy].
      destruct (bool_decide (is_Some (cell_dict !! (row, col')))); [| inversion Hy'].
      apply list_elem_of_singleton in Hy, Hy'. congruence.
  - intros row row' y (col & _ & Hy)%elem_of_flat_map (col' & _ & Hy')%elem_of_flat_map.
    destruct (bool_decide (is_Some (cell_dict !! (row, col)))); [| inversion Hy].
    destruct (bool_decide (is_Some (cell_dict !! (row', col')))); [| inversion Hy'].
    apply list_elem_of_singleton in Hy, Hy'. congruence.
Qed.

(** The order of [cell_dict.items()]: every top-left once, none already
    seen. *)
Lemma elem_of_insertion_order seen cells (k : Z * Z) :
  k ∈ insertion_order seen cells
  <-> (k ∉ seen) /\ exists c, c ∈ cells /\ k = (RowTl c + 1, ColTl c + 1).
Proof.
  revert seen; induction cells as [|a cells IH]; intros seen; cbn [insertion_order].
  - split; [intros H; inversion H | intros [_ (c & H & _)]; inversion H].
  - case_bool_decide as D.
    + rewrite IH. split.
      * intros [N (c & Hc & E)]. split; [exact N |]. exists c. split; [now right | exact E].
      * intros [N (c & Hc & E)]. split; [exact N |].
        apply elem_of_cons in Hc as [-> | Hc]; [subst k; contradiction | eauto].
    + rewrite elem_of_cons, IH. split.
      * intros [-> | [N (c & Hc & E)]].
        -- split; [exact D |]. exists a. split; [now left | reflexivity].
        -- apply not_elem_of_cons in N as [_ N]. split; [exact N |].
           exists c. split; [now right | exact E].
      * intros [N (c & Hc & E)].
        destruct (decide (k = (RowTl a + 1, ColTl a + 1))) as [K | K]; [now left |].
        right. split; [apply not_elem_of_cons; now split |].
        apply elem_of_cons in Hc as [-> | Hc]; [contradiction | eauto].
Qed.

(** [cell_dict.items()] yields every entry of the dictionary. *)
Lemma elem_of_items cells (i : Z * Z * string) :
  i ∈ items cells (fill_cells cells).1 <-> (fill_cells cells).1 !! i.1 = Some i.2.
Proof.
  unfold items. rewrite list_elem_of_omap. split.
  - intros (k & _ & E). destruct ((fill_cells cells).1 !! k) as [v |] eqn:L; [| discriminate].
    cbn in E. injection E as <-. exact L.
  - intros L. exists i.1. split.
    + apply elem_of_insertion_order. split; [apply not_elem_of_nil |].
      assert (S : is_Some ((fill_cells cells).1 !! i.1)) by eauto.
      unfold fill_cells in S. apply fold_occupied in S as [[x S] | S]; [| exact S].
      cbn in S. now rewrite lookup_empty in S.
    + rewrite L. cbn. now destruct i as [k v].
Qed.

(** Writing the entries one after another gives the dictionary back. *)
Lemma written_lookup (d : gmap (Z * Z) string) (todo : list (Z * Z * string))
    (m0 : gmap (Z * Z) string) (k : Z * Z) :
  (forall i, i ∈ todo -> d !! i.1 = Some i.2) ->
  foldl (fun m i => <[i.1 := i.2]> m) m0 todo !! k
  = if bool_decide (k ∈ todo.*1) then d !! k else m0 !! k.
Proof.
  revert m0; induction todo as [|i todo IH]; intros m0 H; cbn [foldl].
  - rewrite bool_decide_eq_false_2 by apply not_elem_of_nil. reflexivity.
  - rewrite IH by (intros j Hj; apply H; now right).
    cbn [fmap list_fmap]. do 2 case_bool_decide; try reflexivity.
    + exfalso. rename select (k ∉ _) into N. apply N. now right.
    + rename select (k ∈ _ :: _) into I. rename select (k ∉ _) into N.
      apply elem_of_cons in I as [-> | I]; [| contradiction].
      rewrite lookup_insert_eq. symmetry. apply H. now left.
    + rename select (k ∉ _ :: _) into N. apply not_elem_of_cons in N as [N _].
      now rewrite lookup_insert_ne.
Qed.

Lemma items_written cells :
  foldl (fun m i => <[i.1 := i.2]> m) ∅ (items cells (fill_cells cells).1)
  = (fill_cells cells).1.
Proof.
  apply map_eq. intros k.
  rewrite (written_lookup (fill_cells cells).1) by (intros i; apply elem_of_items).
  case_bool_decide as D; [reflexivity |].
  rewrite lookup_empty. symmetry. apply eq_None_not_Some. intros [v L].
  apply D. apply list_elem_of_fmap. exists (k, v). split; [reflexivity |].
  now apply elem_of_items.
Qed.

(** A sheet after cell writes that openpyxl took. *)
Lemma written_fields (sheet : Sheet) (todo : list (Z * Z * string)) :
  let sheet' := foldl (fun sh i => set_value i.1 i.2 sh) sheet todo in
  title sheet' = title sheet /\ widths sheet' = widths sheet
  /\ merges sheet' = merges sheet /\ aligned sheet' = aligned sheet
  /\ values sheet' = foldl (fun m i => <[i.1 := i.2]> m) (values sheet) todo.
Proof.
  revert sheet; induction todo as [|i todo IH]; intros sheet; cbn [foldl]; [repeat split |].
  destruct (IH (set_value i.1 i.2 sheet)) as (H1 & H2 & H3 & H4 & H5).
  cbv zeta. rewrite H1, H2, H3, H4, H5. repeat split.
Qed.

(** A sheet after merges that openpyxl took: the ranges are recorded in
    order, and a value stays where no range emptied its cell. *)
Lemma merged_fields (sheet : Sheet) (todo : list (Z * Z * Z * Z)) :
  let sheet' := foldl (fun sh range => merge_cells range sh) sheet todo in
  title sheet' = title sheet /\ widths sheet' = widths sheet
  /\ merges sheet' = (merges sheet ++ todo)%list /\ aligned sheet' = aligned sheet
  /\ forall k value,
       values sheet' !! k = Some value
       <-> values sheet !! k = Some value
           /\ forall range, range ∈ todo -> emptied_by range k = false.
Proof.
  revert sheet; induction todo as [|m todo IH]; intros sheet; cbn [foldl].
  - cbv zeta. rewrite app_nil_r. repeat split; try tauto.
    intros range Hr. inversion Hr.
  - destruct (IH (merge_cells m sheet)) as (H1 & H2 & H3 & H4 & H5).
    cbv zeta. rewrite H1, H2, H3, H4. cbn [merge_cells title widths merges aligned].
    rewrite <- app_assoc. repeat split.
    + apply H5 in H as [L _]. cbn [merge_cells values] in L.
      now apply map_lookup_filter_Some in L as [L _].
    + intros range [-> | Hr]%elem_of_cons.
      * apply H5 in H as [L _]. cbn [merge_cells values] in L.
        now apply map_lookup_filter_Some in L as [_ L].
      * apply H5 in H as [_ E]. now apply E.
    + intros [L E]. apply H5. split.
      * cbn [merge_cells values]. apply map_lookup_filter_Some. split; [exact L |].
        apply E. now left.
      * intros range Hr. apply E. now right.
Qed.

(** The loops of the builder work on the sheet it created, the last of the
    workbook, whether openpyxl takes every call or raises at one. *)
Lemma write_cells_last w (book : Workbook) (sheet : Sheet) todo :
  exists r sheet',
    write_cells w (length book) todo (book ++ [sheet])%list = (r, (book ++ [sheet'])%list)
    /\ title sheet' = title sheet.
Proof.
  revert sheet; induction todo as [|[[row col] value] todo IH]; intros sheet.
  - exists (Ok tt), sheet. split; reflexivity.
  - cbn [write_cells]. unfold bind, lift, update_sheet, modify.
    destruct (xl_cell w row col value) as [[] | e].
    + rewrite alter_last.
      destruct (IH (set_value (row, col) value sheet)) as (r & sheet' & E & T).
      exists r, sheet'. split; [exact E | exact T].
    + exists (Raise e), sheet. split; reflexivity.
Qed.

Lemma apply_merges_last w (book : Workbook) (sheet : Sheet) todo :
  exists r sheet',
    apply_merges w (length book) todo (book ++ [sheet])%list = (r, (book ++ [sheet'])%list)
    /\ title sheet' = title sheet.
Proof.
  revert sheet; induction todo as [|range todo IH]; intros sheet.
  - exists (Ok tt), sheet. split; reflexivity.
  - cbn [apply_merges]. unfold bind, lift, update_sheet, modify.
    destruct (xl_merge_cells w range) as [[] | e].
    + rewrite alter_last.
      destruct (IH (merge_cells range sheet)) as (r & sheet' & E & T).
      exists r, sheet'. split; [exact E | exact T].
    + exists (Raise e), sheet. split; reflexivity.
Qed.

Lemma write_cells_taken w (book : Workbook) (sheet : Sheet) (todo : list (Z * Z * string)) :
  (forall i, i ∈ todo -> xl_cell w i.1.1 i.1.2 i.2 = Ok tt) ->
  write_cells w (length book) todo (book ++ [sheet])%list
  = (Ok tt, (book ++ [foldl (fun sh i => set_value i.1 i.2 sh) sheet todo])%list).
Proof.
  revert sheet; induction todo as [|[[row col] value] todo IH]; intros sheet H; [reflexivity |].
  cbn [write_cells foldl]. unfold bind, lift, update_sheet, modify.
  pose proof (H (row, col, value) ltac:(now left)) as E. cbn [fst snd] in E.
  rewrite E, alter_last.
  apply IH. intros i Hi. apply H. now right.
Qed.

Lemma apply_merges_taken w (book : Workbook) (sheet : Sheet) (todo : list (Z * Z * Z * Z)) :
  (forall range, range ∈ todo -> xl_merge_cells w range = Ok tt) ->
  apply_merges w (length book) todo (book ++ [sheet])%list
  = (Ok tt, (book ++ [foldl (fun sh range => merge_cells range sh) sheet todo])%list).
Proof.
  revert sheet; induction todo as [|range todo IH]; intros sheet H; [reflexivity |].
  cbn [apply_merges foldl]. unfold bind, lift, update_sheet, modify.
  rewrite (H range) by now left. rewrite alter_last.
  apply IH. intros i Hi. apply H. now right.
Qed.

(** The workbook after the builder: as before, or one sheet longer, the new
    sheet under the title openpyxl gave it. *)
Lemma create_worksheet_grows (w : World) (base_name : string) (result : RawResult)
    (book : Workbook) :
  exists success reason added,
    create_worksheet w base_name result book = (Ok (success, reason), (book ++ added)%list)
    /\ (length added <= 1)%nat
    /\ (forall sheet, sheet ∈ added ->
          xl_create_sheet w (title <$> book) base_name = Ok (title sheet))
    /\ (success = true -> reason = None /\ length added = 1%nat)
    /\ (success = false -> exists msg, reason = Some msg).
Proof.
  assert (Kept : forall msg,
             exists success reason added,
               (Ok (false, Some msg), book)
               = (@Ok (bool * option string) (success, reason), (book ++ added)%list)
               /\ (length added <= 1)%nat
               /\ (forall sheet, sheet ∈ added ->
                     xl_create_sheet w (title <$> book) base_name = Ok (title sheet))
               /\ (success = true -> reason = None /\ length added = 1%nat)
               /\ (success = false -> exists msg, reason = Some msg)).
  { intros msg. exists false, (Some msg), []. rewrite app_nil_r.
    repeat split; simpl; try lia; try discriminate; eauto.
    intros sheet Hs. inversion Hs. }
  assert (Added : forall success reason sheet,
             xl_create_sheet w (title <$> book) base_name = Ok (title sheet) ->
             (success = true -> reason = None) ->
             (success = false -> exists msg, reason = Some msg) ->
             exists success' reason' added,
               (Ok (success, reason), (book ++ [sheet])%list)
               = (@Ok (bool * option string) (success', reason'), (book ++ added)%list)
               /\ (length added <= 1)%nat
               /\ (forall sheet, sheet ∈ added ->
                     xl_create_sheet w (title <$> book) base_name = Ok (title sheet))
               /\ (success' = true -> reason' = None /\ length added = 1%nat)
               /\ (success' = false -> exists msg, reason' = Some msg)).
  { intros success reason sheet G S F. exists success, reason, [sheet].
    repeat split; simpl; try lia; auto.
    intros sheet' Hs. apply list_elem_of_singleton in Hs. now subst sheet'. }
  unfold create_worksheet, try_except.
  destruct (TableDetections result) as [| | tds]; [apply Kept | apply Kept |].
  destruct (length tds <? 2)%nat eqn:L; [apply Kept |].
  destruct tds as [|r0 [|r1 rest]]; try discriminate L.
  unfold bind at 1. unfold create_sheet.
  destruct (xl_create_sheet w (title <$> book) base_name) as [given | e] eqn:G; [| apply Kept].
  unfold bind, lift, getitem, getitem_Cells, update_sheet, modify, ret.
  cbn [lookup list_lookup].
  destruct (Cells r1) as [| | cells].
  - apply Added; [reflexivity | discriminate | eauto].
  - rewrite alter_last. cbn [py_iter]. apply Added; [reflexivity | discriminate | eauto].
  - rewrite alter_last. cbn [py_iter].
    destruct cells as [|c cs]; cbn [py_max fmap list_fmap].
    { apply Added; [reflexivity | discriminate | eauto]. }
    destruct (fill_cells (c :: cs)) as [cell_dict merged_cells].
    destruct (write_cells_last w book (set_widths (new_sheet given))
                (items (c :: cs) cell_dict)) as (r1' & sheet1 & -> & T1).
    destruct r1' as [[] | e1]; [| apply Added; [now rewrite T1 | discriminate | eauto]].
    destruct (apply_merges_last w book sheet1 merged_cells) as (r2 & sheet2 & -> & T2).
    destruct r2 as [[] | e2]; [| apply Added; [now rewrite T2, T1 | discriminate | eauto]].
    rewrite alter_last.
    apply Added; [cbn [align_cells title]; now rewrite T2, T1 | reflexivity | discriminate].
Qed.

(** The builder on a main table with cells, when openpyxl takes the title,
    every value and every range. *)
Lemma create_worksheet_taken (w : World) (base_name : string) (result : RawResult)
    (book : Workbook) r0 r1 rest c cs given :
  TableDetections result = Value (r0 :: r1 :: rest) ->
  Cells r1 = Value (c :: cs) ->
  xl_create_sheet w (title <$> book) base_name = Ok given ->
  (forall k value,
      (fill_cells (c :: cs)).1 !! k = Some value -> xl_cell w k.1 k.2 value = Ok tt) ->
  (forall range, range ∈ (fill_cells (c :: cs)).2 -> xl_merge_cells w range = Ok tt) ->
  exists sheet,
    create_worksheet w base_name result book = (Ok (true, None), (book ++ [sheet])%list)
    /\ title sheet = given
    /\ widths sheet = zip (seqZ 1 9) column_widths
    /\ (forall k value,
          values sheet !! k = Some value
          <-> (fill_cells (c :: cs)).1 !! k = Some value
              /\ forall range, range ∈ (fill_cells (c :: cs)).2 -> emptied_by range k = false)
    /\ merges sheet = (fill_cells (c :: cs)).2
    /\ aligned sheet
       = occupied_in_box (foldl Z.max (RowBr c) (RowBr <$> cs))
                         (foldl Z.max (ColBr c) (ColBr <$> cs))
                         (fill_cells (c :: cs)).1.
Proof.
  intros T C G HC HM.
  assert (HI : forall i, i ∈ items (c :: cs) (fill_cells (c :: cs)).1 ->
                         xl_cell w i.1.1 i.1.2 i.2 = Ok tt).
  { intros i Hi. apply HC. now apply elem_of_items. }
  pose proof (items_written (c :: cs)) as IW.
  unfold create_worksheet, try_except, bind, create_sheet, lift, getitem, getitem_Cells,
    update_sheet, modify.
  rewrite T. cbn [length Nat.ltb Nat.leb lookup list_lookup].
  rewrite G, C. cbn [py_iter py_max fmap list_fmap].
  destruct (fill_cells (c :: cs)) as [cell_dict merged_cells].
  cbn [fst snd] in HC, HM, HI, IW |- *.
  rewrite !alter_last, (write_cells_taken w book _ _ HI).
  rewrite (apply_merges_taken w book _ _ HM), alter_last. unfold ret.
  eexists. split; [reflexivity |].
  destruct (merged_fields
              (foldl (fun sh i => set_value i.1 i.2 sh) (set_widths (new_sheet given))
                 (items (c :: cs) cell_dict)) merged_cells) as (M1 & M2 & M3 & M4 & M5).
  destruct (written_fields (set_widths (new_sheet given)) (items (c :: cs) cell_dict))
    as (W1 & W2 & W3 & W4 & W5).
  cbv zeta in M1, M2, M3, M4, M5, W1, W2, W3, W4, W5.
  cbn [align_cells title widths values merges aligned].
  rewrite M1, M2, M3, M4, W1, W2, W3, W4. cbn [set_widths new_sheet title widths merges aligned app].
  split; [reflexivity |]. split; [reflexivity |]. split; [| split; reflexivity].
  cbn [set_widths new_sheet values] in W5.
  intros k value. now rewrite M5, W5, IW.
Qed.

End GridMore.

Module GridExtras.

Import Grid GridFacts GridMore.

(** X7.  The builder never raises and never touches the sheets already in
    the workbook: it returns the workbook as it was or with one sheet added at
    the end, under the title openpyxl gave it when asked for the base name
    (which need not be the base name: openpyxl picks another title when that
    one is in use).  When it reports success there is no reason and exactly
    one sheet was added; when it reports failure there is a reason. *)
Theorem worksheet_only_appends (w : World) (base_name : string) (result : RawResult)
    (book : Workbook) :
  exists success reason added,
    create_worksheet w base_name result book = (Ok (success, reason), (book ++ added)%list)
    /\ (length added <= 1)%nat
    /\ (forall sheet, sheet ∈ added ->
          xl_create_sheet w (title <$> book) base_name = Ok (title sheet))
    /\ (success = true -> reason = None /\ length added = 1%nat)
    /\ (success = false -> exists msg, reason = Some msg).
Proof. apply create_worksheet_grows. Qed.

(** X8.  When openpyxl takes the title, every value at its coordinate and
    every range, and every cell of the main table has bounds with
    0 <= start < end in rows and in columns, the builder succeeds, and the
    cells it centres and wraps are exactly the top-left coordinates of the
    cells of the table, each visited once.  Every cell of the sheet that holds
    a value is among them; a top-left that the merge of another cell emptied
    is centred all the same. *)
Theorem occupied_cells_are_aligned (w : World) (base_name : string) (result : RawResult)
    (book : Workbook) (r0 r1 : TableDetection) (rest : list TableDetection)
    (cells : list Cell) (given : string) :
  TableDetections result = Value (r0 :: r1 :: rest) ->
  Cells r1 = Value cells ->
  cells <> [] ->
  Forall (fun c => 0 <= RowTl c < RowBr c /\ 0 <= ColTl c < ColBr c) cells ->
  xl_create_sheet w (title <$> book) base_name = Ok given ->
  (forall k value, (fill_cells cells).1 !! k = Some value -> xl_cell w k.1 k.2 value = Ok tt) ->
  (forall range, range ∈ (fill_cells cells).2 -> xl_merge_cells w range = Ok tt) ->
  exists sheet,
    create_worksheet w base_name result book = (Ok (true, None), (book ++ [sheet])%list)
    /\ title sheet = given
    /\ (forall k : Z * Z,
          k ∈ aligned sheet <-> exists c, c ∈ cells /\ k = (RowTl c + 1, ColTl c + 1))
    /\ NoDup (aligned sheet)
    /\ (forall k : Z * Z, is_Some (values sheet !! k) -> k ∈ aligned sheet).
Proof.
  intros T C NE WF G HC HM.
  destruct cells as [|c cs]; [congruence |].
  destruct (create_worksheet_taken w base_name result book r0 r1 rest c cs given T C G HC HM)
    as (sheet & E & Ti & _ & Va & _ & Al).
  exists sheet. split; [exact E |]. split; [exact Ti |]. rewrite Al.
  assert (Top : forall k : Z * Z,
             k ∈ occupied_in_box (foldl Z.max (RowBr c) (RowBr <$> cs))
                   (foldl Z.max (ColBr c) (ColBr <$> cs)) (fill_cells (c :: cs)).1
             <-> exists cell, cell ∈ c :: cs /\ k = (RowTl cell + 1, ColTl cell + 1)).
  { intros k. rewrite elem_of_occupied_in_box. unfold fill_cells. rewrite fold_occupied.
    split.
    - intros (_ & _ & [[x Hx] | H]); [| exact H]. simpl in Hx. now rewrite lookup_empty in Hx.
    - intros (cell & Hc & ->). rewrite Forall_forall in WF. destruct (WF cell Hc) as [WR WC].
      destruct (foldl_max_bounds (RowBr <$> cs) (RowBr c)) as [R1 R2].
      destruct (foldl_max_bounds (ColBr <$> cs) (ColBr c)) as [C1 C2].
      simpl. split; [| split]; [| | right; eauto].
      + apply elem_of_cons in Hc as [-> | Hc]; [lia |].
        specialize (R2 (RowBr cell) (list_elem_of_fmap_2 RowBr cs cell Hc)). lia.
      + apply elem_of_cons in Hc as [-> | Hc]; [lia |].
        specialize (C2 (ColBr cell) (list_elem_of_fmap_2 ColBr cs cell Hc)). lia. }
  split; [exact Top |]. split; [apply NoDup_occupied_in_box |].
  intros k [value Hv]. apply Va in Hv as [Hv _]. apply Top.
  assert (S : is_Some ((fill_cells (c :: cs)).1 !! k)) by eauto.
  unfold fill_cells in S. apply fold_occupied in S as [[x Hx] | H]; [| exact H].
  simpl in Hx. now rewrite lookup_empty in Hx.
Qed.

Lemma occupied_cells_are_aligned_witness :
  exists sheet,
    create_worksheet Scenario.world "a" Scenario.table_result []
    = (Ok (true, None), ([] ++ [sheet])%list)
    /\ title sheet = "a"
    /\ (forall k : Z * Z,
          k ∈ aligned sheet
          <-> exists c, c ∈ [Scenario.tall_cell; Scenario.plain_cell]
                        /\ k = (RowTl c + 1, ColTl c + 1))
    /\ NoDup (aligned sheet)
    /\ (forall k : Z * Z, is_Some (values sheet !! k) -> k ∈ aligned sheet).
Proof.
  apply (occupied_cells_are_aligned Scenario.world "a" Scenario.table_result []
           {| Cells := Value [] |}
           {| Cells := Value [Scenario.tall_cell; Scenario.plain_cell] |} []
           [Scenario.tall_cell; Scenario.plain_cell] "a").
  - reflexivity.
  - reflexivity.
  - discriminate.
  - repeat constructor; simpl; lia.
  - reflexivity.
  - intros k value H.
    assert (S : is_Some ((fill_cells [Scenario.tall_cell; Scenario.plain_cell]).1 !! k))
      by eauto.
    unfold fill_cells in S. apply fold_occupied in S as [[x Hx] | (c & Hc & ->)].
    { simpl in Hx. now rewrite lookup_empty in Hx. }
    apply elem_of_cons in Hc as [-> | Hc]; [reflexivity |].
    apply list_elem_of_singleton in Hc. subst c. reflexivity.
  - intros range _. reflexivity.
Defined.

(** X9.  Every merge the builder records begins at a coordinate that holds a
    value, and is longer than one row or wider than one column: no merge is
    recorded for an empty range or for a single cell. *)
Theorem merge_starts_at_filled_cell (cells : list Cell) (row_start row_end col_start col_end : Z) :
  (row_start, row_end, col_start, col_end) ∈ (fill_cells cells).2 ->
  is_Some ((fill_cells cells).1 !! (row_start, col_start))
  /\ (row_end > row_start \/ col_end > col_start).
Proof.
  unfold fill_cells. rewrite fold_merges. simpl.
  intros (c & Hc & Hm)%elem_of_flat_map.
  destruct (bool_decide (RowBr c - RowTl c > 1 \/ ColBr c - ColTl c > 1)) eqn:D;
    [| inversion Hm].
  apply list_elem_of_singleton in Hm. injection Hm as -> -> -> ->.
  apply bool_decide_eq_true_1 in D. split; [| lia].
  apply fold_occupied. right. exists c. split; [exact Hc | reflexivity].
Qed.

Lemma merge_starts_at_filled_cell_witness :
  is_Some ((fill_cells [Scenario.tall_cell; Scenario.plain_cell]).1 !! (1, 1))
  /\ (2 > 1 \/ 1 > 1).
Proof.
  apply (merge_starts_at_filled_cell [Scenario.tall_cell; Scenario.plain_cell] 1 2 1 1).
  vm_compute. left.
Defined.

(** X21.  When openpyxl refuses the title asked for (as it does for a title
    with a character it does not allow), the builder reports the failure with
    openpyxl's message and adds no sheet: the workbook is left as it was. *)
Theorem refused_title_adds_no_sheet (w : World) (base_name : string) (result : RawResult)
    (book : Workbook) (tds : list TableDetection) (e : exn) :
  TableDetections result = Value tds ->
  (2 <= length tds)%nat ->
  xl_create_sheet w (title <$> book) base_name = Raise e ->
  create_worksheet w base_name result book
  = (Ok (false, Some ("创建工作表出错: " +:+ str e)), book).
Proof.
  intros T L G. unfold create_worksheet, try_except. rewrite T.
  replace (length tds <? 2)%nat with false by (symmetry; apply Nat.ltb_ge; lia).
  unfold bind at 1. unfold create_sheet. now rewrite G.
Qed.

Lemma refused_title_adds_no_sheet_witness :
  create_worksheet Scenario.world "a:b" Scenario.table_result []
  = (Ok (false, Some "创建工作表出错: Invalid character : found in sheet title"), []).
Proof.
  apply (refused_title_adds_no_sheet Scenario.world "a:b" Scenario.table_result []
           [ {| Cells := Value [] |};
             {| Cells := Value [Scenario.tall_cell; Scenario.plain_cell] |} ]
           (OtherException "Invalid character : found in sheet title")).
  - reflexivity.
  - simpl. lia.
  - reflexivity.
Defined.

(** X22.  When openpyxl refuses the first value the builder writes, that of
    the first cell's top-left (as it does for a row or column below 1), the
    builder reports the failure with openpyxl's message, and the sheet it had
    created stays in the workbook, with its column widths and nothing
    else. *)
Theorem refused_value_leaves_sheet (w : World) (base_name : string) (result : RawResult)
    (book : Workbook) (r0 r1 : TableDetection) (rest : list TableDetection)
    (c : Cell) (cs : list Cell) (given : string) (e : exn) :
  TableDetections result = Value (r0 :: r1 :: rest) ->
  Cells r1 = Value (c :: cs) ->
  xl_create_sheet w (title <$> book) base_name = Ok given ->
  (forall value, xl_cell w (RowTl c + 1) (ColTl c + 1) value = Raise e) ->
  create_worksheet w base_name result book
  = (Ok (false, Some ("创建工作表出错: " +:+ str e)),
     (book ++ [set_widths (new_sheet given)])%list).
Proof.
  intros T C G H.
  assert (S : is_Some ((fill_cells (c :: cs)).1 !! (RowTl c + 1, ColTl c + 1))).
  { unfold fill_cells. apply fold_occupied. right. exists c. split; [now left | reflexivity]. }
  destruct S as [value S].
  unfold create_worksheet, try_except, bind, create_sheet, lift, getitem, getitem_Cells,
    update_sheet, modify.
  rewrite T. cbn [length Nat.ltb Nat.leb lookup list_lookup].
  rewrite G, C. cbn [py_iter py_max fmap list_fmap].
  destruct (fill_cells (c :: cs)) as [cell_dict merged_cells]. cbn [fst] in S.
  rewrite alter_last. unfold items. cbn [insertion_order].
  rewrite bool_decide_eq_false_2 by apply not_elem_of_nil.
  cbn [omap list_omap]. rewrite S. cbn [fmap option_fmap option_map write_cells].
  unfold bind, lift. now rewrite H.
Qed.

Lemma refused_value_leaves_sheet_witness :
  create_worksheet Scenario.world "a"
    {| TableDetections :=
         Value [ {| Cells := Value [] |};
                 {| Cells := Value [ {| RowTl := -1; RowBr := 1; ColTl := 0; ColBr := 1;
                                        Text := "x" |} ] |} ];
       RequestId := Value "req-30" |} []
  = (Ok (false, Some "创建工作表出错: Row or column values must be at least 1"),
     ([] ++ [set_widths (new_sheet "a")])%list).
Proof.
  apply (refused_value_leaves_sheet Scenario.world "a" _ []
           {| Cells := Value [] |}
           {| Cells := Value [ {| RowTl := -1; RowBr := 1; ColTl := 0; ColBr := 1;
                                  Text := "x" |} ] |} []
           {| RowTl := -1; RowBr := 1; ColTl := 0; ColBr := 1; Text := "x" |} [] "a"
           (OtherException "Row or column values must be at least 1")).
  - reflexivity.
  - reflexivity.
  - reflexivity.
  - intros value. reflexivity.
Defined.

End GridExtras.

(** ** Checkpointed writer and batch coordinator *)

Module CoordinatorMore.

Import Coordinator CoordinatorFacts.

(** One turn of the draining loop, case by case. *)
Lemma complete_unfold w output_path batch_size img_path future s :
  complete w output_path batch_size img_path future s
  = match future with
    | Raise (RuntimeError _) => (Ok Return, count_processed s)
    | Raise (OtherException msg) =>
        (Ok Next, append_failure (basename img_path) (Some msg) (count_processed s))
    | Ok (None, error_msg) =>
        (Ok Next, append_failure (basename img_path) error_msg (count_processed s))
    | Ok (Some r, error_msg) =>
        if truthy r then
          match Grid.create_worksheet w (splitext (basename img_path)).1 r (default [] (wb s)) with
          | (Ok (true, _), book) =>
              if batch_counter s + 1 >=? batch_size then
                if (batch_size =? 0)%Z then
                  (Ok Next,
                   append_failure (basename img_path)
                     (Some "integer division or modulo by zero")
                     (count_success (set_wb book (count_processed s))))
                else
                  (Ok Next,
                   reset_batch_counter
                     (set_disk
                        (save_workbook w book output_path
                           (Some ((success_count s + 1) / batch_size)) (disk s)).2
                        (count_success (set_wb book (count_processed s)))))
              else (Ok Next, count_success (set_wb book (count_processed s)))
          | (Ok (false, create_error), book) =>
              (Ok Next,
               append_failure (basename img_path) create_error
                 (set_wb book (count_processed s)))
          | (Raise (RuntimeError _), book) => (Ok Return, set_wb book (count_processed s))
          | (Raise (OtherException msg), book) =>
              (Ok Next,
               append_failure (basename img_path) (Some msg)
                 (set_wb book (count_processed s)))
          end
        else
          (Ok Next, append_failure (basename img_path) error_msg (count_processed s))
    end.
Proof.
  open_complete.
  destruct future as [[[r |] error_msg] | [m | m]]; try reflexivity.
  destruct (truthy r); [| reflexivity].
  cbv beta iota. rewrite ensure_workbook_default.
  destruct (Grid.create_worksheet w (splitext (basename img_path)).1 r (default [] (wb s)))
    as [[[[|] reason] | [m | m]] book];
    destruct s as [[book0 |] pc sc bc ff dk]; try reflexivity.
  all: cbn.
  all: destruct (bc + 1 >=? batch_size); [| reflexivity].
  all: unfold floordiv; destruct (batch_size =? 0)%Z; reflexivity.
Qed.

(** The draining loop over two stretches of completions. *)
Lemma drain_app w output_path batch_size before after s :
  drain w output_path batch_size (before ++ after) s
  = match drain w output_path batch_size before s with
    | (Ok Next, s1) => drain w output_path batch_size after s1
    | stopped => stopped
    end.
Proof.
  revert s; induction before as [|[img_path future] before IH]; intros s; [reflexivity |].
  cbn [app drain]. unfold bind.
  destruct (complete w output_path batch_size img_path future s) as [[[|] | e] s1];
    [apply IH | reflexivity | reflexivity].
Qed.

(** What one turn does to the sheets and to the count of successes. *)
Lemma complete_sheets w output_path batch_size img_path future s :
  exists added,
    default [] (wb (complete w output_path batch_size img_path future s).2)
    = (default [] (wb s) ++ added)%list
    /\ (length added <= 1)%nat
    /\ (forall sheet, sheet ∈ added ->
          xl_create_sheet w (title <$> default [] (wb s)) (splitext (basename img_path)).1
          = Ok (title sheet))
    /\ success_count s
       <= success_count (complete w output_path batch_size img_path future s).2
       <= success_count s + Z.of_nat (length added).
Proof.
  rewrite complete_unfold.
  assert (Same : forall s' : MainState,
             wb s' = wb s -> success_count s' = success_count s ->
             exists added,
               default [] (wb s') = (default [] (wb s) ++ added)%list
               /\ (length added <= 1)%nat
               /\ (forall sheet, sheet ∈ added ->
                     xl_create_sheet w (title <$> default [] (wb s))
                       (splitext (basename img_path)).1
                     = Ok (title sheet))
               /\ success_count s <= success_count s' <= success_count s + Z.of_nat (length added)).
  { intros s' -> ->. exists []. rewrite app_nil_r. repeat split; simpl; try lia.
    intros sheet Hs. inversion Hs. }
  destruct future as [[[r |] error_msg] | [m | m]]; cbn [snd]; try (apply Same; reflexivity).
  destruct (truthy r); cbn [snd]; [| apply Same; reflexivity].
  destruct (GridMore.create_worksheet_grows w (splitext (basename img_path)).1 r
              (default [] (wb s)))
    as (success & reason & added & -> & L & Ti & Su & _).
  exists added. destruct success.
  - destruct (Su eq_refl) as [_ L1].
    destruct (batch_counter s + 1 >=? batch_size); [destruct (batch_size =? 0)%Z |];
      cbn; rewrite L1; repeat split; try lia; exact Ti.
  - cbn. repeat split; try lia; exact Ti.
Qed.

(** The batch counter follows the successes modulo the threshold. *)
Lemma complete_batch_counter w output_path batch_size img_path future s :
  0 < batch_size ->
  0 <= batch_counter s < batch_size /\ batch_counter s = success_count s `mod` batch_size ->
  let s' := (complete w output_path batch_size img_path future s).2 in
  0 <= batch_counter s' < batch_size /\ batch_counter s' = success_count s' `mod` batch_size.
Proof.
  intros P [B M]. rewrite complete_unfold.
  destruct future as [[[r |] error_msg] | [m | m]]; cbn; try (split; assumption).
  destruct (truthy r); cbn; [| split; assumption].
  destruct (Grid.create_worksheet w (splitext (basename img_path)).1 r (default [] (wb s)))
    as [[[[|] reason] | [m | m]] book]; cbn; try (split; assumption).
  destruct (batch_counter s + 1 >=? batch_size) eqn:G.
  - replace (batch_size =? 0)%Z with false by (symmetry; apply Z.eqb_neq; lia).
    cbn. apply Z.geb_le in G. split; [lia |].
    apply Z.mod_unique with (q := success_count s `div` batch_size + 1); [lia |].
    pose proof (Z.div_mod (success_count s) batch_size ltac:(lia)). nia.
  - cbn. rewrite Z.geb_leb in G. apply Z.leb_gt in G. split; [lia |].
    apply Z.mod_unique with (q := success_count s `div` batch_size); [lia |].
    pose proof (Z.div_mod (success_count s) batch_size ltac:(lia)). lia.
Qed.

Lemma drain_batch_counter w output_path batch_size completions s :
  0 < batch_size ->
  0 <= batch_counter s < batch_size /\ batch_counter s = success_count s `mod` batch_size ->
  let s' := (drain w output_path batch_size completions s).2 in
  0 <= batch_counter s' < batch_size /\ batch_counter s' = success_count s' `mod` batch_size.
Proof.
  intros P. revert s; induction completions as [|[img_path future] rest IH]; intros s I.
  - exact I.
  - cbn [drain]. unfold bind.
    pose proof (complete_batch_counter w output_path batch_size img_path future s P I) as I1.
    cbv zeta in I1.
    destruct (complete w output_path batch_size img_path future s) as [[[|] | e] s1];
      cbn [snd] in I1 |- *; [apply IH |..]; exact I1.
Qed.

End CoordinatorMore.

(** ** Python primitives, continued *)

Module PyMore.

Lemma append_inv_head (s a b : string) : s +:+ a = s +:+ b -> a = b.
Proof.
  induction s as [|c s IH]; [trivial |].
  change (String c (s +:+ a) = String c (s +:+ b) -> a = b).
  intros H. injection H as H. exact (IH H).
Qed.

Lemma append_inv_tail (a b e : string) : a +:+ e = b +:+ e -> a = b.
Proof.
  revert b; induction a as [|c a IH]; intros [|d b] H.
  - reflexivity.
  - apply (f_equal String.length) in H.
    change (String.length e = S (String.length (b +:+ e))) in H.
    rewrite PyFacts.length_append in H. lia.
  - apply (f_equal String.length) in H.
    change (S (String.length (a +:+ e)) = String.length e) in H.
    rewrite PyFacts.length_append in H. lia.
  - change (String c (a +:+ e) = String d (b +:+ e)) in H.
    injection H as -> H. f_equal. exact (IH b H).
Qed.

(** [str] of an integer tells the integers apart. *)
Lemma str_of_Z_inj (n m : Z) : str_of_Z n = str_of_Z m -> n = m.
Proof.
  unfold str_of_Z. intros H. apply DecimalZ.to_int_inj.
  assert (N : forall z : Z, Z.to_int z <> Decimal.Pos Decimal.Nil
                            /\ Z.to_int z <> Decimal.Neg Decimal.Nil).
  { intros [|q|q]; simpl; split; try discriminate; intros [= E];
      exact (DecimalPos.Unsigned.to_uint_nonnil q E). }
  apply (f_equal NilZero.int_of_string) in H.
  rewrite !NilZero.isi in H by apply N. now injection H.
Qed.

End PyMore.

Module CoordinatorHelp.

Import Coordinator CoordinatorFacts CoordinatorMore.

(** No sheet asked for: no title given. *)
Lemma titled_skip_all w seen base_names : titled w seen base_names [].
Proof.
  induction base_names as [|b base_names IH]; [constructor | now constructor].
Qed.

(** The sheets added by the draining loop are asked for under the base names
    of the images, in the order of arrival, and every counted success added
    one. *)
Lemma drain_sheets w output_path batch_size completions s :
  exists added,
    default [] (wb (drain w output_path batch_size completions s).2)
    = (default [] (wb s) ++ added)%list
    /\ titled w (title <$> default [] (wb s))
         (map (fun c : string * result Worker.Outcome => (splitext (basename c.1)).1)
              completions)
         (title <$> added)
    /\ success_count s
       <= success_count (drain w output_path batch_size completions s).2
       <= success_count s + Z.of_nat (length added).
Proof.
  revert s; induction completions as [|[img_path future] rest IH]; intros s.
  - exists []. rewrite app_nil_r. cbn. repeat split; try lia. constructor.
  - cbn [drain map fst]. unfold bind.
    destruct (complete_sheets w output_path batch_size img_path future s)
      as (added1 & W1 & L1 & T1 & S1).
    destruct (complete w output_path batch_size img_path future s) as [[[|] | e] s1];
      cbn [snd] in W1, S1 |- *.
    + destruct (IH s1) as (added2 & W2 & Sub2 & S2).
      exists (added1 ++ added2)%list. rewrite W2, W1, <- app_assoc.
      split; [reflexivity |]. split; [| rewrite length_app; lia].
      rewrite W1 in Sub2.
      destruct added1 as [|sheet [|sheet' added1]]; [| | simpl in L1; lia].
      * rewrite app_nil_r in Sub2. now constructor.
      * rewrite fmap_app in Sub2. cbn [app fmap list_fmap] in Sub2 |- *.
        apply titled_next; [apply T1; now left | exact Sub2].
    + exists added1. split; [exact W1 |]. split; [| exact S1].
      destruct added1 as [|sheet [|sheet' added1]]; [| | simpl in L1; lia].
      * apply titled_skip_all.
      * cbn [fmap list_fmap]. apply titled_next; [apply T1; now left |].
        apply titled_skip_all.
    + exists added1. split; [exact W1 |]. split; [| exact S1].
      destruct added1 as [|sheet [|sheet' added1]]; [| | simpl in L1; lia].
      * apply titled_skip_all.
      * cbn [fmap list_fmap]. apply titled_next; [apply T1; now left |].
        apply titled_skip_all.
Qed.

(** Nothing is written while there is no workbook. *)
Lemma drain_no_workbook_no_file w output_path batch_size completions s :
  (wb s = None -> disk s = []) ->
  wb (drain w output_path batch_size completions s).2 = None ->
  disk (drain w output_path batch_size completions s).2 = [].
Proof.
  revert s; induction completions as [|[img_path future] rest IH]; intros s I; [exact I |].
  cbn [drain]. unfold bind.
  assert (I1 : wb (complete w output_path batch_size img_path future s).2 = None ->
               disk (complete w output_path batch_size img_path future s).2 = []).
  { rewrite complete_unfold.
    destruct future as [[[r |] error_msg] | [m | m]]; cbn; try exact I.
    destruct (truthy r); cbn; [| exact I].
    destruct (Grid.create_worksheet w (splitext (basename img_path)).1 r (default [] (wb s)))
      as [[[[|] reason] | [m | m]] book]; cbn; try discriminate.
    destruct (batch_counter s + 1 >=? batch_size); [destruct (batch_size =? 0)%Z |];
      cbn; discriminate. }
  destruct (complete w output_path batch_size img_path future s) as [[[|] | e] s1];
    cbn [snd] in I1 |- *; [now apply IH | exact I1 | exact I1].
Qed.

(** A run whose workers all return failures only records them. *)
Lemma drain_failures w output_path batch_size arrival s :
  (forall p, p ∈ arrival -> exists msg, (Worker.run_worker w p).1 = Ok (None, msg)) ->
  drain w output_path batch_size
    (map (fun p => (p, (Worker.run_worker w p).1)) arrival) s
  = (Ok Next,
     {| wb := wb s;
        processed_count := processed_count s + Z.of_nat (length arrival);
        success_count := success_count s;
        batch_counter := batch_counter s;
        failed_files :=
          (failed_files s
           ++ map (fun p => (basename p,
                             match (Worker.run_worker w p).1 with
                             | Ok o => o.2
                             | Raise _ => None
                             end)) arrival)%list;
        disk := disk s |}).
Proof.
  revert s; induction arrival as [|p arrival IH]; intros s H.
  - destruct s. cbn. rewrite Z.add_0_r, app_nil_r. reflexivity.
  - cbn [map drain]. unfold bind. rewrite complete_unfold.
    destruct (H p ltac:(now left)) as [msg ->].
    rewrite IH by (intros q Hq; apply H; now right).
    destruct s. cbn. do 2 f_equal; [lia | now rewrite <- app_assoc].
Qed.

End CoordinatorHelp.

Module CoordinatorExtras.

Import Coordinator CoordinatorFacts CoordinatorMore CoordinatorHelp.

(** X10.  Checkpoints with different numbers have different paths: no
    checkpoint is written over an earlier one of another number. *)
Theorem checkpoints_do_not_collide (output_path : string) (n m : Z) :
  temp_path output_path n = temp_path output_path m -> n = m.
Proof.
  unfold temp_path. destruct (splitext output_path) as [base_name ext].
  intros H. apply PyMore.append_inv_head in H. apply PyMore.append_inv_head in H.
  apply PyMore.append_inv_tail in H. exact (PyMore.str_of_Z_inj n m H).
Qed.

Lemma checkpoints_do_not_collide_witness : 3 = 3.
Proof. apply (checkpoints_do_not_collide "out/res.xlsx" 3 3). reflexivity. Defined.

(** X11.  With a positive threshold, whatever the workers return and in
    whatever order, at the end of the run the batch counter is the number of
    successes modulo the threshold, and so below the threshold. *)
Theorem batch_counter_is_successes_mod_threshold (w : World) (output_path : string)
    (batch_size : Z) (image_files arrival : list string) :
  0 < batch_size ->
  0 <= batch_counter (state (main w output_path batch_size image_files arrival)) < batch_size
  /\ batch_counter (state (main w output_path batch_size image_files arrival))
     = success_count (state (main w output_path batch_size image_files arrival))
       `mod` batch_size.
Proof.
  intros P.
  assert (I0 : 0 <= batch_counter initial < batch_size
               /\ batch_counter initial = success_count initial `mod` batch_size).
  { cbn. rewrite Z.mod_0_l by lia. lia. }
  unfold main. destruct image_files as [|p image_files]; [exact I0 |].
  pose proof (drain_batch_counter w output_path batch_size
                (map (fun p => (p, (Worker.run_worker w p).1)) arrival) initial P I0) as I.
  cbv zeta in I.
  destruct (drain w output_path batch_size
              (map (fun p => (p, (Worker.run_worker w p).1)) arrival) initial)
    as [[[|] | e] s]; cbn [snd state] in I |- *; try exact I.
  unfold final_save. destruct (wb s); exact I.
Qed.

Lemma batch_counter_is_successes_mod_threshold_witness :
  0 <= batch_counter (state Scenario.auth_run) < 10
  /\ batch_counter (state Scenario.auth_run)
     = success_count (state Scenario.auth_run) `mod` 10.
Proof.
  apply (batch_counter_is_successes_mod_threshold Scenario.world "out/res.xlsx" 10
           ["imgs/a.png"; "imgs/expired.png"; "imgs/b.png"]
           ["imgs/a.png"; "imgs/expired.png"; "imgs/b.png"]).
  lia.
Defined.

(** X12.  With a threshold other than zero, a run over a directory that has
    images handles every completion and accounts for each exactly once: the
    successes and the failure records add up to the number of completions. *)
Theorem every_completion_counted_once (w : World) (output_path : string)
    (batch_size : Z) (image_files arrival : list string) :
  batch_size <> 0 ->
  image_files <> [] ->
  processed_count (state (main w output_path batch_size image_files arrival))
  = Z.of_nat (length arrival)
  /\ success_count (state (main w output_path batch_size image_files arrival))
     + Z.of_nat (length (failed_files (state (main w output_path batch_size image_files arrival))))
     = Z.of_nat (length arrival).
Proof.
  intros NZ NE. unfold main. destruct image_files as [|p image_files]; [congruence |].
  pose proof (drain_counts_once w output_path batch_size arrival initial NZ) as C.
  cbv zeta in C.
  destruct (drain_workers_next w output_path batch_size arrival initial) as [s E].
  rewrite E in C |- *. cbn [snd state] in C |- *.
  unfold final_save. destruct (wb s); exact C.
Qed.

Lemma every_completion_counted_once_witness :
  processed_count (state Scenario.auth_run) = Z.of_nat 3
  /\ success_count (state Scenario.auth_run)
     + Z.of_nat (length (failed_files (state Scenario.auth_run)))
     = Z.of_nat 3.
Proof.
  apply (every_completion_counted_once Scenario.world "out/res.xlsx" 10
           ["imgs/a.png"; "imgs/expired.png"; "imgs/b.png"]
           ["imgs/a.png"; "imgs/expired.png"; "imgs/b.png"]).
  - lia.
  - discriminate.
Defined.

(** X13.  When every worker returns a failure, the run creates no workbook
    and saves none, neither a checkpoint nor the output file, counts no
    success, and records one failure per completion, in the order of arrival,
    under the base name of the image and with the worker's message.  The one
    file it writes is the failure report, which lists these records (no
    report when there was no completion). *)
Theorem all_failures_save_no_workbook (w : World) (output_path : string)
    (batch_size : Z) (image_files arrival : list string) :
  image_files <> [] ->
  (forall p, p ∈ arrival -> exists msg, (Worker.run_worker w p).1 = Ok (None, msg)) ->
  how (main w output_path batch_size image_files arrival) = Finished
  /\ wb (state (main w output_path batch_size image_files arrival)) = None
  /\ disk (state (main w output_path batch_size image_files arrival)) = []
  /\ success_count (state (main w output_path batch_size image_files arrival)) = 0
  /\ failed_files (state (main w output_path batch_size image_files arrival))
     = map (fun p => (basename p,
                      match (Worker.run_worker w p).1 with
                      | Ok o => o.2
                      | Raise _ => None
                      end)) arrival
  /\ failure_report (main w output_path batch_size image_files arrival)
     = match arrival with
       | [] => None
       | _ => Some (report_lines
                      (map (fun p => (basename p,
                                      match (Worker.run_worker w p).1 with
                                      | Ok o => o.2
                                      | Raise _ => None
                                      end)) arrival))
       end.
Proof.
  intros NE H. unfold main. destruct image_files as [|p image_files]; [congruence |].
  rewrite (drain_failures w output_path batch_size arrival initial H).
  cbn. repeat split. now destruct arrival.
Qed.

Lemma all_failures_save_no_workbook_witness :
  how (main Scenario.world "out/res.xlsx" 10 ["imgs/big.png"; "imgs/quota.png"]
         ["imgs/quota.png"; "imgs/big.png"]) = Finished
  /\ wb (state (main Scenario.world "out/res.xlsx" 10 ["imgs/big.png"; "imgs/quota.png"]
                  ["imgs/quota.png"; "imgs/big.png"])) = None
  /\ disk (state (main Scenario.world "out/res.xlsx" 10 ["imgs/big.png"; "imgs/quota.png"]
                    ["imgs/quota.png"; "imgs/big.png"])) = []
  /\ success_count (state (main Scenario.world "out/res.xlsx" 10
                             ["imgs/big.png"; "imgs/quota.png"]
                             ["imgs/quota.png"; "imgs/big.png"])) = 0
  /\ failed_files (state (main Scenario.world "out/res.xlsx" 10
                            ["imgs/big.png"; "imgs/quota.png"]
                            ["imgs/quota.png"; "imgs/big.png"]))
     = map (fun p => (basename p,
                      match (Worker.run_worker Scenario.world p).1 with
                      | Ok o => o.2
                      | Raise _ => None
                      end)) ["imgs/quota.png"; "imgs/big.png"]
  /\ failure_report (main Scenario.world "out/res.xlsx" 10
                       ["imgs/big.png"; "imgs/quota.png"]
                       ["imgs/quota.png"; "imgs/big.png"])
     = Some (report_lines
               (map (fun p => (basename p,
                               match (Worker.run_worker Scenario.world p).1 with
                               | Ok o => o.2
                               | Raise _ => None
                               end)) ["imgs/quota.png"; "imgs/big.png"])).
Proof.
  apply (all_failures_save_no_workbook Scenario.world "out/res.xlsx" 10
           ["imgs/big.png"; "imgs/quota.png"] ["imgs/quota.png"; "imgs/big.png"]).
  - discriminate.
  - intros p [-> | [-> | Hp]%elem_of_cons]%elem_of_cons.
    + eexists. vm_compute. reflexivity.
    + eexists. vm_compute. reflexivity.
    + inversion Hp.
Defined.

(** X14.  The sheets of the workbook at the end of a run come in the order
    the completions arrived (not the order the images were submitted in):
    each was asked for under the base name of an image, later sheets for
    later completions, and carries the title openpyxl gave it in view of the
    sheets before it.  There are at least as many sheets as counted
    successes. *)
Theorem sheets_follow_arrival_order (w : World) (output_path : string)
    (batch_size : Z) (image_files arrival : list string) :
  titled w [] (map (fun p => (splitext (basename p)).1) arrival)
    (title <$> default [] (wb (state (main w output_path batch_size image_files arrival))))
  /\ success_count (state (main w output_path batch_size image_files arrival))
     <= Z.of_nat (length (default []
                            (wb (state (main w output_path batch_size image_files arrival))))).
Proof.
  unfold main. destruct image_files as [|p image_files].
  { cbn. split; [apply titled_skip_all | lia]. }
  destruct (drain_sheets w output_path batch_size
              (map (fun p => (p, (Worker.run_worker w p).1)) arrival) initial)
    as (added & W & Sub & S).
  rewrite map_map in Sub. cbn [fst] in Sub.
  cbn [wb initial default app success_count fmap list_fmap] in W, S, Sub.
  assert (G : titled w [] (map (fun p => (splitext (basename p)).1) arrival) (title <$> added)
              /\ success_count
                   (drain w output_path batch_size
                      (map (fun p => (p, (Worker.run_worker w p).1)) arrival) initial).2
                 <= Z.of_nat (length added)) by (split; [exact Sub | lia]).
  rewrite <- W in G.
  destruct (drain w output_path batch_size
              (map (fun p => (p, (Worker.run_worker w p).1)) arrival) initial)
    as [[[|] | e] s]; cbn [snd state] in G |- *; try exact G.
  unfold final_save. destruct (wb s) eqn:B; [| rewrite B; exact G].
  cbn [wb set_disk success_count]. rewrite B. exact G.
Qed.

(** X15.  Of the files that [wb.save] writes in a run, the checkpoints and
    the output file, the output file is the last, saved at most once and with
    the workbook as it stands at the end: when the run ends with a workbook
    and its save succeeds, the workbook files saved are the checkpoints and
    then the output file holding that workbook; when the save fails the
    output path stays unwritten; when there is no workbook, [wb.save] wrote
    no file.  (The failure report, a text file written apart from the
    workbook, is not among these files.) *)
Theorem output_file_written_last (w : World) (output_path : string)
    (batch_size : Z) (image_files arrival : list string) :
  match wb (state (main w output_path batch_size image_files arrival)) with
  | Some book =>
      if wb_save w output_path book then
        exists checkpoints,
          disk (state (main w output_path batch_size image_files arrival))
          = (checkpoints ++ [(output_path, book)])%list
          /\ output_path ∉ checkpoints.*1
      else
        output_path ∉ (disk (state (main w output_path batch_size image_files arrival))).*1
  | None => disk (state (main w output_path batch_size image_files arrival)) = []
  end.
Proof.
  unfold main. destruct image_files as [|p image_files]; [reflexivity |].
  pose proof (drain_keeps_output_path w output_path batch_size
                (map (fun p => (p, (Worker.run_worker w p).1)) arrival) initial
                ltac:(cbn; apply not_elem_of_nil)) as K.
  pose proof (drain_no_workbook_no_file w output_path batch_size
                (map (fun p => (p, (Worker.run_worker w p).1)) arrival) initial
                ltac:(reflexivity)) as N.
  destruct (drain_workers_next w output_path batch_size arrival initial) as [s E].
  rewrite E in K, N |- *. cbn [snd state] in K, N |- *.
  unfold final_save. destruct (wb s) as [book |] eqn:B.
  - unfold save_workbook. destruct (wb_save w output_path book) eqn:Sv; cbn; rewrite B, Sv.
    + exists (disk s). split; [reflexivity | exact K].
    + exact K.
  - rewrite B. now apply N.
Qed.

(** X16.  A [RuntimeError] out of a future ends the draining loop there: the
    completion is counted as processed, nothing is recorded for it, and no
    completion after it is handled. *)
Theorem runtime_error_stops_draining (w : World) (output_path : string) (batch_size : Z)
    (before after : list (string * result Worker.Outcome)) (img_path msg : string)
    (s s1 : MainState) :
  drain w output_path batch_size before s = (Ok Next, s1) ->
  drain w output_path batch_size
    (before ++ (img_path, Raise (RuntimeError msg)) :: after) s
  = (Ok Return, count_processed s1).
Proof.
  intros H. rewrite drain_app, H. reflexivity.
Qed.

Lemma runtime_error_stops_draining_witness :
  drain Scenario.world "out/res.xlsx" 10
    ([("imgs/big.png", Ok (None, Some "图片超过3MB限制"))]
     ++ ("imgs/x.png", Raise (RuntimeError "fatal"))
        :: [("imgs/a.png", Ok (Some Scenario.table_result, None))]) initial
  = (Ok Return,
     count_processed
       {| wb := None; processed_count := 1; success_count := 0; batch_counter := 0;
          failed_files := [("big.png", Some "图片超过3MB限制")]; disk := [] |}).
Proof.
  apply (runtime_error_stops_draining Scenario.world "out/res.xlsx" 10).
  vm_compute. reflexivity.
Defined.

End CoordinatorExtras.

(** ** Scanning the image directory *)

Module ScanFacts.

Import Scan.

Lemma chars_append (a b : string) :
  list_ascii_of_string (a +:+ b) = (list_ascii_of_string a ++ list_ascii_of_string b)%list.
Proof.
  induction a as [|c a IH]; [reflexivity |].
  change (c :: list_ascii_of_string (a +:+ b)
          = c :: (list_ascii_of_string a ++ list_ascii_of_string b)%list).
  now rewrite IH.
Qed.

Lemma rfind_from_absent (c : ascii) (s : string) (i last : Z) :
  ~ In c (list_ascii_of_string s) -> rfind_from c s i last = last.
Proof.
  revert i last; induction s as [|d s IH]; intros i last H; [reflexivity |].
  simpl in H |- *. destruct (Ascii.eqb d c) eqn:E.
  - apply Ascii.eqb_eq in E. tauto.
  - apply IH. tauto.
Qed.

Lemma rfind_from_append (c : ascii) (a b : string) (i last : Z) :
  rfind_from c (a +:+ b) i last
  = rfind_from c b (i + Z.of_nat (String.length a)) (rfind_from c a i last).
Proof.
  revert i last; induction a as [|d a IH]; intros i last.
  - cbn. now rewrite Z.add_0_r.
  - change (rfind_from c (a +:+ b) (i + 1) (if Ascii.eqb d c then i else last)
            = rfind_from c b (i + Z.of_nat (S (String.length a)))
                (rfind_from c a (i + 1) (if Ascii.eqb d c then i else last))).
    rewrite IH. f_equal. lia.
Qed.

Lemma rfind_from_at_least (c : ascii) (s : string) (i last : Z) :
  last <= i -> last <= rfind_from c s i last.
Proof.
  revert i last; induction s as [|d s IH]; intros i last H; simpl; [lia |].
  destruct (Ascii.eqb d c).
  - etransitivity; [exact H |]. apply IH. lia.
  - apply IH. lia.
Qed.

(** The last occurrence of a character, when none follows it. *)
Lemma rfind_last (c : ascii) (a b : string) :
  ~ In c (list_ascii_of_string b) ->
  rfind c (a +:+ String c b) = Z.of_nat (String.length a).
Proof.
  intros H. unfold rfind. rewrite rfind_from_append. simpl.
  rewrite Ascii.eqb_refl. now rewrite rfind_from_absent.
Qed.

Lemma str_take_length_append (a b : string) : str_take (String.length a) (a +:+ b) = a.
Proof.
  induction a as [|c a IH]; [now destruct b |].
  change (String c (str_take (String.length a) (a +:+ b)) = String c a). now rewrite IH.
Qed.

Lemma str_drop_length_append (a b : string) : str_drop (String.length a) (a +:+ b) = b.
Proof.
  induction a as [|c a IH]; [now destruct b |].
  change (str_drop (String.length a) (a +:+ b) = b). exact IH.
Qed.

(** [splitext] on a name without a slash whose last dot follows a stem. *)
Lemma splitext_name (stem e : string) :
  ~ In "/"%char (list_ascii_of_string stem) ->
  ~ In "/"%char (list_ascii_of_string e) ->
  ~ In "."%char (list_ascii_of_string e) ->
  splitext (stem +:+ String "."%char e)
  = if existsb (fun ch => negb (Ascii.eqb ch "."%char)) (list_ascii_of_string stem)
    then (stem, String "."%char e)
    else (stem +:+ String "."%char e, EmptyString).
Proof.
  intros S1 S2 D. unfold splitext.
  rewrite (rfind_last "." stem e D).
  assert (R : rfind "/" (stem +:+ String "." e) = -1).
  { unfold rfind. apply rfind_from_absent. rewrite chars_append. simpl.
    intros [H | [H | H]]%in_app_or; [tauto | discriminate H | tauto]. }
  rewrite R. replace (Z.of_nat (String.length stem) >? -1) with true
    by (symmetry; apply Z.gtb_lt; lia).
  replace (Z.to_nat (-1 + 1)) with 0%nat by reflexivity.
  replace (Z.to_nat (Z.of_nat (String.length stem) - (-1 + 1))) with (String.length stem) by lia.
  rewrite Nat2Z.id.
  change (str_drop 0 (stem +:+ String "." e)) with (stem +:+ String "." e).
  rewrite str_take_length_append, str_drop_length_append. reflexivity.
Qed.

(** A name with no dot has no extension. *)
Lemma splitext_no_dot (f : string) :
  ~ In "."%char (list_ascii_of_string f) -> splitext f = (f, EmptyString).
Proof.
  intros D. unfold splitext.
  replace (rfind "." f) with (-1) by (symmetry; now apply rfind_from_absent).
  pose proof (rfind_from_at_least "/" f 0 (-1) ltac:(lia)) as L. fold (rfind "/" f) in L.
  replace (-1 >? rfind "/" f) with false; [reflexivity |].
  symmetry. rewrite Z.gtb_ltb. apply Z.ltb_ge. exact L.
Qed.

#[global] Instance str_le_total : Total str_le.
Proof. intros a b. apply String.leb_total. Qed.

End ScanFacts.

Module ScanExtras.

Import Scan ScanFacts.

(** X17.  Which directory entries count as images.  For a name made of a
    stem, a dot and a last part without dot (and no slash anywhere): when the
    stem has a character other than a dot, the name is taken exactly when the
    dot and last part, lowered, are one of the six supported extensions, so
    upper and mixed case are accepted; when the stem is empty or all dots
    (a name like [.png]) it is not taken.  A name without any dot is not
    taken. *)
Theorem extension_test_ignores_case_and_needs_stem (stem e : string) :
  ~ In "/"%char (list_ascii_of_string stem) ->
  ~ In "/"%char (list_ascii_of_string e) ->
  ~ In "."%char (list_ascii_of_string e) ->
  ((exists ch, In ch (list_ascii_of_string stem) /\ ch <> "."%char) ->
   (supported (stem +:+ String "."%char e) = true
    <-> lower (String "."%char e) ∈ SUPPORTED_EXT))
  /\ ((forall ch, In ch (list_ascii_of_string stem) -> ch = "."%char) ->
      supported (stem +:+ String "."%char e) = false)
  /\ supported e = false.
Proof.
  intros S1 S2 D. split; [| split].
  - intros (ch & Hin & Hne). unfold supported.
    rewrite (splitext_name stem e S1 S2 D).
    replace (existsb (fun ch => negb (Ascii.eqb ch ".")) (list_ascii_of_string stem)) with true.
    + cbn [snd]. apply bool_decide_eq_true.
    + symmetry. apply existsb_exists. exists ch. split; [exact Hin |].
      apply negb_true_iff. now apply Ascii.eqb_neq.
  - intros Hall. unfold supported.
    rewrite (splitext_name stem e S1 S2 D).
    replace (existsb (fun ch => negb (Ascii.eqb ch ".")) (list_ascii_of_string stem)) with false.
    + reflexivity.
    + symmetry. apply not_true_is_false. intros (ch & Hin & Hne)%existsb_exists.
      apply negb_true_iff, Ascii.eqb_neq in Hne. exact (Hne (Hall ch Hin)).
  - unfold supported. now rewrite (splitext_no_dot e D).
Qed.

Lemma extension_test_ignores_case_and_needs_stem_witness :
  supported "scan.PNG" = true <-> lower ".PNG" ∈ SUPPORTED_EXT.
Proof.
  apply (proj1 (extension_test_ignores_case_and_needs_stem "scan" "PNG"
                  ltac:(simpl; intuition discriminate) ltac:(simpl; intuition discriminate)
                  ltac:(simpl; intuition discriminate))).
  exists "s"%char. split; [now left | discriminate].
Defined.

(** X18.  The images of a run are the entries of the directory that pass the
    extension test, each joined to the directory, none lost and none twice,
    in ascending order of their paths; there is none exactly when no entry
    passes the test. *)
Theorem scan_keeps_supported_in_order (image_dir : string) (listing : list string) :
  (forall p, p ∈ image_files image_dir listing
             <-> exists f, f ∈ listing /\ supported f = true /\ p = join image_dir f)
  /\ image_files image_dir listing
     ≡ₚ map (join image_dir) (filter (fun f => supported f = true) listing)
  /\ Sorted str_le (image_files image_dir listing)
  /\ (image_files image_dir listing = [] <-> forall f, f ∈ listing -> supported f = false).
Proof.
  unfold image_files. split; [| split; [| split]].
  - intros p. rewrite merge_sort_Permutation, list_elem_of_In, in_map_iff. split.
    + intros (f & <- & Hf). apply list_elem_of_In, list_elem_of_filter in Hf as [Hs Hf]. eauto.
    + intros (f & Hf & Hs & ->). exists f. split; [reflexivity |].
      apply list_elem_of_In, list_elem_of_filter. auto.
  - apply merge_sort_Permutation.
  - apply (Sorted_merge_sort str_le).
  - rewrite <- (Permutation_nil_r (merge_sort _ _)), merge_sort_Permutation, Permutation_nil_r.
    split.
    + intros H f Hf. apply not_true_is_false. intros Hs.
      assert (I : join image_dir f ∈ map (join image_dir)
                    (filter (fun f => supported f = true) listing)).
      { apply list_elem_of_In, in_map, list_elem_of_In, list_elem_of_filter. auto. }
      rewrite H in I. inversion I.
    + intros H. destruct (filter (fun f => supported f = true) listing) as [|f l] eqn:F;
        [reflexivity |].
      assert (I : f ∈ filter (fun f => supported f = true) listing) by (rewrite F; now left).
      apply list_elem_of_filter in I as [Hs Hf]. rewrite (H f Hf) in Hs. discriminate Hs.
Qed.

End ScanExtras.

Module CoordinatorRecords.

Import Coordinator CoordinatorFacts CoordinatorMore.

(** Failure records are only ever added, at the end. *)
Lemma complete_failures_grow w output_path batch_size img_path future s :
  exists extra,
    failed_files (complete w output_path batch_size img_path future s).2
    = (failed_files s ++ extra)%list.
Proof.
  rewrite complete_unfold.
  destruct future as [[[r |] error_msg] | [m | m]]; cbn;
    try (eexists; reflexivity); try (exists []; now rewrite app_nil_r).
  destruct (truthy r); cbn; [| eexists; reflexivity].
  destruct (Grid.create_worksheet w (splitext (basename img_path)).1 r (default [] (wb s)))
    as [[[[|] reason] | [m | m]] book]; cbn;
    try (eexists; reflexivity); try (exists []; now rewrite app_nil_r).
  destruct (batch_counter s + 1 >=? batch_size); [destruct (batch_size =? 0)%Z |]; cbn;
    try (eexists; reflexivity); exists []; now rewrite app_nil_r.
Qed.

Lemma drain_failures_grow w output_path batch_size completions s :
  exists extra,
    failed_files (drain w output_path batch_size completions s).2
    = (failed_files s ++ extra)%list.
Proof.
  revert s; induction completions as [|[img_path future] rest IH]; intros s.
  - exists []. now rewrite app_nil_r.
  - cbn [drain]. unfold bind.
    destruct (complete_failures_grow w output_path batch_size img_path future s) as [e1 E1].
    destruct (complete w output_path batch_size img_path future s) as [[[|] | e] s1];
      cbn [snd] in E1 |- *; try (eexists; exact E1).
    destruct (IH s1) as [e2 E2]. exists (e1 ++ e2)%list.
    now rewrite E2, E1, app_assoc.
Qed.

(** X19.  No failure of a worker is dropped: whatever else happens in the
    run, an image whose worker returned no result and a reason has a failure
    record under its base name with that reason. *)
Theorem worker_failure_is_recorded (w : World) (output_path : string) (batch_size : Z)
    (image_files arrival : list string) (p : string) (reason : option string) :
  image_files <> [] ->
  p ∈ arrival ->
  (Worker.run_worker w p).1 = Ok (None, reason) ->
  (basename p, reason)
  ∈ failed_files (state (main w output_path batch_size image_files arrival)).
Proof.
  intros NE Hp Hr. unfold main. destruct image_files as [|q image_files]; [congruence |].
  assert (G : (basename p, reason)
              ∈ failed_files
                  (drain w output_path batch_size
                     (map (fun p => (p, (Worker.run_worker w p).1)) arrival) initial).2).
  { apply list_elem_of_split in Hp as (pre & post & ->).
    rewrite map_app. cbn [map]. rewrite drain_app.
    destruct (drain_workers_next w output_path batch_size pre initial) as [s1 ->].
    cbn [drain]. unfold bind. rewrite complete_unfold, Hr.
    destruct (drain_failures_grow w output_path batch_size
                (map (fun p => (p, (Worker.run_worker w p).1)) post)
                (append_failure (basename p) reason (count_processed s1))) as [extra E].
    rewrite E. cbn [failed_files append_failure].
    apply elem_of_app. left. apply elem_of_app. right. now left. }
  destruct (drain w output_path batch_size
              (map (fun p => (p, (Worker.run_worker w p).1)) arrival) initial)
    as [[[|] | e] s]; cbn [snd state] in G |- *; try exact G.
  unfold final_save. destruct (wb s); exact G.
Qed.

Lemma worker_failure_is_recorded_witness :
  (basename "imgs/expired.png",
   Some "处理错误: 腾讯云认证错误: signature expired [错误码: AuthFailure.SignatureExpire]")
  ∈ failed_files (state Scenario.auth_run).
Proof.
  apply (worker_failure_is_recorded Scenario.world "out/res.xlsx" 10
           ["imgs/a.png"; "imgs/expired.png"; "imgs/b.png"]
           ["imgs/a.png"; "imgs/expired.png"; "imgs/b.png"] "imgs/expired.png").
  - discriminate.
  - right. now left.
  - vm_compute. reflexivity.
Defined.

End CoordinatorRecords.

Module CoordinatorSheets.

Import Coordinator CoordinatorFacts CoordinatorMore CoordinatorHelp.

(** A completion whose result has a main table with cells adds its sheet,
    when openpyxl takes the title, the values and the ranges. *)
Lemma complete_adds_sheet w output_path batch_size img_path r error_msg s r0 r1 rest c cs
    given :
  TableDetections r = Value (r0 :: r1 :: rest) ->
  Cells r1 = Value (c :: cs) ->
  xl_create_sheet w (title <$> default [] (wb s)) (splitext (basename img_path)).1
  = Ok given ->
  (forall k value,
      (Grid.fill_cells (c :: cs)).1 !! k = Some value -> xl_cell w k.1 k.2 value = Ok tt) ->
  (forall range, range ∈ (Grid.fill_cells (c :: cs)).2 -> xl_merge_cells w range = Ok tt) ->
  exists s2 sheet,
    complete w output_path batch_size img_path (Ok (Some r, error_msg)) s = (Ok Next, s2)
    /\ default [] (wb s2) = (default [] (wb s) ++ [sheet])%list
    /\ title sheet = given
    /\ (forall k value,
          values sheet !! k = Some value
          <-> (Grid.fill_cells (c :: cs)).1 !! k = Some value
              /\ forall range, range ∈ (Grid.fill_cells (c :: cs)).2 ->
                               Grid.emptied_by range k = false)
    /\ merges sheet = (Grid.fill_cells (c :: cs)).2.
Proof.
  intros T C G HC HM. rewrite complete_unfold.
  replace (truthy r) with true by (unfold truthy; now rewrite T).
  destruct (GridMore.create_worksheet_taken w _ r _ r0 r1 rest c cs given T C G HC HM)
    as (sheet & -> & Ti & _ & Va & Me & _).
  destruct (batch_counter s + 1 >=? batch_size); [destruct (batch_size =? 0)%Z |];
    eexists; exists sheet; (split; [reflexivity |]); cbn;
    (split; [reflexivity |]); (split; [exact Ti |]); (split; [exact Va | exact Me]).
Qed.

(** X20.  Take an image whose worker returned a result with a main table
    that has cells, and let openpyxl take a sheet under its base name
    whatever sheets there are, every value of the table at its coordinate and
    every range of the table.  Then the workbook at the end of the run has
    its sheet: titled as openpyxl titled it in view of the sheets before it,
    with the merges built from those cells, and holding their values except
    where a merge emptied the cell.  Later completions do not remove or
    change it. *)
Theorem recognised_table_has_its_sheet (w : World) (output_path : string) (batch_size : Z)
    (image_files arrival : list string) (p : string) (r : RawResult)
    (error_msg : option string) (r0 r1 : TableDetection) (rest : list TableDetection)
    (c : Cell) (cs : list Cell) :
  image_files <> [] ->
  p ∈ arrival ->
  (Worker.run_worker w p).1 = Ok (Some r, error_msg) ->
  TableDetections r = Value (r0 :: r1 :: rest) ->
  Cells r1 = Value (c :: cs) ->
  (forall seen, exists given, xl_create_sheet w seen (splitext (basename p)).1 = Ok given) ->
  (forall k value,
      (Grid.fill_cells (c :: cs)).1 !! k = Some value -> xl_cell w k.1 k.2 value = Ok tt) ->
  (forall range, range ∈ (Grid.fill_cells (c :: cs)).2 -> xl_merge_cells w range = Ok tt) ->
  exists before sheet after,
    default [] (wb (state (main w output_path batch_size image_files arrival)))
    = (before ++ sheet :: after)%list
    /\ xl_create_sheet w (title <$> before) (splitext (basename p)).1 = Ok (title sheet)
    /\ (forall k value,
          values sheet !! k = Some value
          <-> (Grid.fill_cells (c :: cs)).1 !! k = Some value
              /\ forall range, range ∈ (Grid.fill_cells (c :: cs)).2 ->
                               Grid.emptied_by range k = false)
    /\ merges sheet = (Grid.fill_cells (c :: cs)).2.
Proof.
  intros NE Hp Hr T C HT HC HM. unfold main.
  destruct image_files as [|q image_files]; [congruence |].
  assert (G : exists before sheet after,
             default []
               (wb (drain w output_path batch_size
                      (map (fun p => (p, (Worker.run_worker w p).1)) arrival)
                      initial).2)
             = (before ++ sheet :: after)%list
             /\ xl_create_sheet w (title <$> before) (splitext (basename p)).1
                = Ok (title sheet)
             /\ (forall k value,
                   values sheet !! k = Some value
                   <-> (Grid.fill_cells (c :: cs)).1 !! k = Some value
                       /\ forall range, range ∈ (Grid.fill_cells (c :: cs)).2 ->
                                        Grid.emptied_by range k = false)
             /\ merges sheet = (Grid.fill_cells (c :: cs)).2).
  { apply list_elem_of_split in Hp as (pre & post & ->).
    rewrite map_app. cbn [map]. rewrite drain_app.
    destruct (drain_workers_next w output_path batch_size pre initial) as [s1 ->].
    cbn [drain]. unfold bind. rewrite Hr.
    destruct (HT (title <$> default [] (wb s1))) as [given G].
    destruct (complete_adds_sheet w output_path batch_size p r error_msg s1 r0 r1 rest c cs
                given T C G HC HM)
      as (s2 & sheet & -> & W & Ti & Va & Me).
    destruct (drain_sheets w output_path batch_size
                (map (fun p => (p, (Worker.run_worker w p).1)) post) s2)
      as (added & W2 & _ & _).
    exists (default [] (wb s1)), sheet, added.
    rewrite W2, W, <- app_assoc. split; [reflexivity |].
    rewrite Ti. auto. }
  destruct (drain w output_path batch_size
              (map (fun p => (p, (Worker.run_worker w p).1)) arrival) initial)
    as [[[|] | e] s]; cbn [snd state] in G |- *; try exact G.
  unfold final_save. destruct (wb s) eqn:B; [| rewrite B; exact G].
  cbn [wb set_disk]. rewrite B. exact G.
Qed.

Lemma recognised_table_has_its_sheet_witness :
  exists before sheet after,
    default [] (wb (state Scenario.auth_run)) = (before ++ sheet :: after)%list
    /\ xl_create_sheet Scenario.world (title <$> before) (splitext (basename "imgs/a.png")).1
       = Ok (title sheet)
    /\ (forall k value,
          values sheet !! k = Some value
          <-> (Grid.fill_cells [Scenario.tall_cell; Scenario.plain_cell]).1 !! k = Some value
              /\ forall range,
                   range ∈ (Grid.fill_cells [Scenario.tall_cell; Scenario.plain_cell]).2 ->
                   Grid.emptied_by range k = false)
    /\ merges sheet = (Grid.fill_cells [Scenario.tall_cell; Scenario.plain_cell]).2.
Proof.
  apply (recognised_table_has_its_sheet Scenario.world "out/res.xlsx" 10
           ["imgs/a.png"; "imgs/expired.png"; "imgs/b.png"]
           ["imgs/a.png"; "imgs/expired.png"; "imgs/b.png"] "imgs/a.png"
           Scenario.table_result None
           {| Cells := Value [] |}
           {| Cells := Value [Scenario.tall_cell; Scenario.plain_cell] |} []).
  - discriminate.
  - now left.
  - vm_compute. reflexivity.
  - reflexivity.
  - reflexivity.
  - intros seen. eexists. reflexivity.
  - intros k value H.
    assert (S : is_Some ((Grid.fill_cells [Scenario.tall_cell; Scenario.plain_cell]).1 !! k))
      by eauto.
    unfold Grid.fill_cells in S.
    apply GridFacts.fold_occupied in S as [[x Hx] | (c & Hc & ->)].
    { simpl in Hx. now rewrite lookup_empty in Hx. }
    apply elem_of_cons in Hc as [-> | Hc]; [reflexivity |].
    apply list_elem_of_singleton in Hc. subst c. reflexivity.
  - intros range _. reflexivity.
Defined.

End CoordinatorSheets.
